(** * AURAtrac Lite: the counter core of [auratrac_lite.py]

    A shallow embedding of the [Settings] dataclass, of the [CounterCore]
    thread object (its fields, its three queues and its methods), of the
    two settings ingestion points ([ControlPanel.apply_inputs] and
    [load_or_default]), and the properties of the accumulation policies
    (Rapid, Multi-Click, Burst, Multi-Burst) proved about them.

    Conventions of the embedding.
    - Python [int] is [Z].  Clock readings ([time.time() * 1000]) are
      milliseconds, taken integral as in the [InputEvent] contract; the
      code only subtracts and compares them.  [0] is the value the code
      uses for "no press yet" ([last_press_time = 0.0]).
    - A method of [CounterCore] is a function on the record of its
      fields.  [queue.Queue.put] appends at the end of a list,
      [get_nowait] takes the head.
    - [sequence_presses % amount] raises [ZeroDivisionError] when
      [amount] is [0]: methods that reach it return a [result] that keeps
      the fields as they were when the exception left the method.
    - The f-string status texts are kept as the constructors of [status],
      with the formatted values as arguments. *)

From Stdlib Require Import ZArith List Bool String Lia QArith Qminmax.
From Stdlib Require Import DecimalString.
Import ListNotations.
Open Scope Z_scope.

(** ** Settings *)

Inductive input_kind : Type := keyboard | mouse.

Record Settings : Type := mkSettings {
  input_type : input_kind;
  input_code : Z;
  is_rapid_mode : bool;
  amount : Z;
  burst_idle_ms : Z;
  font_size : Z;
  text_color : string;
  bg_color : string;
  is_bold : bool;
  is_transparent : bool;
  opacity : Q;
  is_paused : bool;
  cfg_count : Z            (* the dataclass field [count] *)
}.

(** [Settings()]: the dataclass defaults. *)
Definition default_settings : Settings :=
  {| input_type := keyboard; input_code := 44;
     is_rapid_mode := true; amount := 1; burst_idle_ms := 0;
     font_size := 48; text_color := "#FFD700"; bg_color := "#000000";
     is_bold := true; is_transparent := true; opacity := (85 # 100)%Q;
     is_paused := false; cfg_count := 0 |}.

Definition set_input_type v (c : Settings) : Settings :=
  mkSettings v (input_code c) (is_rapid_mode c) (amount c) (burst_idle_ms c)
    (font_size c) (text_color c) (bg_color c) (is_bold c) (is_transparent c)
    (opacity c) (is_paused c) (cfg_count c).
Definition set_input_code v (c : Settings) : Settings :=
  mkSettings (input_type c) v (is_rapid_mode c) (amount c) (burst_idle_ms c)
    (font_size c) (text_color c) (bg_color c) (is_bold c) (is_transparent c)
    (opacity c) (is_paused c) (cfg_count c).
Definition set_is_rapid_mode v (c : Settings) : Settings :=
  mkSettings (input_type c) (input_code c) v (amount c) (burst_idle_ms c)
    (font_size c) (text_color c) (bg_color c) (is_bold c) (is_transparent c)
    (opacity c) (is_paused c) (cfg_count c).
Definition set_amount v (c : Settings) : Settings :=
  mkSettings (input_type c) (input_code c) (is_rapid_mode c) v (burst_idle_ms c)
    (font_size c) (text_color c) (bg_color c) (is_bold c) (is_transparent c)
    (opacity c) (is_paused c) (cfg_count c).
Definition set_burst_idle_ms v (c : Settings) : Settings :=
  mkSettings (input_type c) (input_code c) (is_rapid_mode c) (amount c) v
    (font_size c) (text_color c) (bg_color c) (is_bold c) (is_transparent c)
    (opacity c) (is_paused c) (cfg_count c).
Definition set_font_size v (c : Settings) : Settings :=
  mkSettings (input_type c) (input_code c) (is_rapid_mode c) (amount c)
    (burst_idle_ms c) v (text_color c) (bg_color c) (is_bold c)
    (is_transparent c) (opacity c) (is_paused c) (cfg_count c).
Definition set_text_color v (c : Settings) : Settings :=
  mkSettings (input_type c) (input_code c) (is_rapid_mode c) (amount c)
    (burst_idle_ms c) (font_size c) v (bg_color c) (is_bold c)
    (is_transparent c) (opacity c) (is_paused c) (cfg_count c).
Definition set_bg_color v (c : Settings) : Settings :=
  mkSettings (input_type c) (input_code c) (is_rapid_mode c) (amount c)
    (burst_idle_ms c) (font_size c) (text_color c) v (is_bold c)
    (is_transparent c) (opacity c) (is_paused c) (cfg_count c).
Definition set_is_bold v (c : Settings) : Settings :=
  mkSettings (input_type c) (input_code c) (is_rapid_mode c) (amount c)
    (burst_idle_ms c) (font_size c) (text_color c) (bg_color c) v
    (is_transparent c) (opacity c) (is_paused c) (cfg_count c).
Definition set_is_transparent v (c : Settings) : Settings :=
  mkSettings (input_type c) (input_code c) (is_rapid_mode c) (amount c)
    (burst_idle_ms c) (font_size c) (text_color c) (bg_color c) (is_bold c)
    v (opacity c) (is_paused c) (cfg_count c).
Definition set_opacity v (c : Settings) : Settings :=
  mkSettings (input_type c) (input_code c) (is_rapid_mode c) (amount c)
    (burst_idle_ms c) (font_size c) (text_color c) (bg_color c) (is_bold c)
    (is_transparent c) v (is_paused c) (cfg_count c).
Definition set_is_paused v (c : Settings) : Settings :=
  mkSettings (input_type c) (input_code c) (is_rapid_mode c) (amount c)
    (burst_idle_ms c) (font_size c) (text_color c) (bg_color c) (is_bold c)
    (is_transparent c) (opacity c) v (cfg_count c).
Definition set_cfg_count v (c : Settings) : Settings :=
  mkSettings (input_type c) (input_code c) (is_rapid_mode c) (amount c)
    (burst_idle_ms c) (font_size c) (text_color c) (bg_color c) (is_bold c)
    (is_transparent c) (opacity c) (is_paused c) v.

(** ** Messages on the queues *)

(** The texts put under ["status"]. *)
Inductive status : Type :=
| CoreStarted                              (* "Core started. Waiting for input..." *)
| RapidPlusOne                             (* "Rapid Mode: +1" *)
| BurstCompleted (tracker amt : Z)         (* "Burst Completed ({tracker}/{amt})" *)
| MultiClickCount (amt : Z)                (* "Multi-Click Count ({amt} met)" *)
| BurstCountFirstPress                     (* "Burst Count (First Press)" *)
| MultiBurstCount (amt : Z)                (* "Multi-Burst Count ({amt} bursts met)" *)
| TrackingKey (scan_code : Z)              (* "Tracking Key: {key_name}" *)
| TrackingMouse (code : Z).                (* "Tracking Mouse: {mouse_btn_name}" *)

(** The pairs put on [update_q]. *)
Inductive update : Type :=
| UCount (n : Z)                   (* ("count", n) *)
| UPaused (b : bool)               (* ("paused", b) *)
| UStatus (m : status)             (* ("status", text) *)
| USequencePresses (n : Z).        (* ("sequence_presses", n) *)

(** The messages put on [event_q]. *)
Inductive core_event : Type := quit.

(** ** CounterCore *)

Record CounterCore : Type := mkCore {
  settings : Settings;
  count : Z;
  is_running : bool;
  update_q : list update;
  event_q : list core_event;
  setting_q : list Settings;
  sequence_presses : Z;
  last_press_time : Z;
  burst_count_tracker : Z;
  last_scroll_time : Z;
  key_hook : bool;               (* a keyboard hook is registered *)
  mouse_hook : bool              (* a mouse hook is registered *)
}.

(** [self.scroll_debounce_ms]: assigned once in [__init__], never written
    again. *)
Definition scroll_debounce_ms : Z := 100.

Definition with_settings v (s : CounterCore) : CounterCore :=
  mkCore v (count s) (is_running s) (update_q s) (event_q s) (setting_q s)
    (sequence_presses s) (last_press_time s) (burst_count_tracker s)
    (last_scroll_time s) (key_hook s) (mouse_hook s).
Definition with_count v (s : CounterCore) : CounterCore :=
  mkCore (settings s) v (is_running s) (update_q s) (event_q s) (setting_q s)
    (sequence_presses s) (last_press_time s) (burst_count_tracker s)
    (last_scroll_time s) (key_hook s) (mouse_hook s).
Definition with_is_running v (s : CounterCore) : CounterCore :=
  mkCore (settings s) (count s) v (update_q s) (event_q s) (setting_q s)
    (sequence_presses s) (last_press_time s) (burst_count_tracker s)
    (last_scroll_time s) (key_hook s) (mouse_hook s).
Definition with_update_q v (s : CounterCore) : CounterCore :=
  mkCore (settings s) (count s) (is_running s) v (event_q s) (setting_q s)
    (sequence_presses s) (last_press_time s) (burst_count_tracker s)
    (last_scroll_time s) (key_hook s) (mouse_hook s).
Definition with_event_q v (s : CounterCore) : CounterCore :=
  mkCore (settings s) (count s) (is_running s) (update_q s) v (setting_q s)
    (sequence_presses s) (last_press_time s) (burst_count_tracker s)
    (last_scroll_time s) (key_hook s) (mouse_hook s).
Definition with_setting_q v (s : CounterCore) : CounterCore :=
  mkCore (settings s) (count s) (is_running s) (update_q s) (event_q s) v
    (sequence_presses s) (last_press_time s) (burst_count_tracker s)
    (last_scroll_time s) (key_hook s) (mouse_hook s).
Definition with_sequence_presses v (s : CounterCore) : CounterCore :=
  mkCore (settings s) (count s) (is_running s) (update_q s) (event_q s)
    (setting_q s) v (last_press_time s) (burst_count_tracker s)
    (last_scroll_time s) (key_hook s) (mouse_hook s).
Definition with_last_press_time v (s : CounterCore) : CounterCore :=
  mkCore (settings s) (count s) (is_running s) (update_q s) (event_q s)
    (setting_q s) (sequence_presses s) v (burst_count_tracker s)
    (last_scroll_time s) (key_hook s) (mouse_hook s).
Definition with_burst_count_tracker v (s : CounterCore) : CounterCore :=
  mkCore (settings s) (count s) (is_running s) (update_q s) (event_q s)
    (setting_q s) (sequence_presses s) (last_press_time s) v
    (last_scroll_time s) (key_hook s) (mouse_hook s).
Definition with_last_scroll_time v (s : CounterCore) : CounterCore :=
  mkCore (settings s) (count s) (is_running s) (update_q s) (event_q s)
    (setting_q s) (sequence_presses s) (last_press_time s)
    (burst_count_tracker s) v (key_hook s) (mouse_hook s).
Definition with_key_hook v (s : CounterCore) : CounterCore :=
  mkCore (settings s) (count s) (is_running s) (update_q s) (event_q s)
    (setting_q s) (sequence_presses s) (last_press_time s)
    (burst_count_tracker s) (last_scroll_time s) v (mouse_hook s).
Definition with_mouse_hook v (s : CounterCore) : CounterCore :=
  mkCore (settings s) (count s) (is_running s) (update_q s) (event_q s)
    (setting_q s) (sequence_presses s) (last_press_time s)
    (burst_count_tracker s) (last_scroll_time s) (key_hook s) v.

(** [self.update_q.put(u)]. *)
Definition put (u : update) (s : CounterCore) : CounterCore :=
  with_update_q (update_q s ++ [u]) s.

(** ** Results of methods that may raise *)

Inductive exn : Type := ZeroDivisionError.

Inductive result : Type :=
| Ok (s : CounterCore)
| Raised (e : exn) (s : CounterCore).

Definition state_of (r : result) : CounterCore :=
  match r with Ok s => s | Raised _ s => s end.

Definition raised (r : result) : bool :=
  match r with Ok _ => false | Raised _ _ => true end.

Definition bind (r : result) (k : CounterCore -> result) : result :=
  match r with Ok s => k s | Raised e s => Raised e s end.

Notation "x <- r ;; k" := (bind r (fun x => k))
  (at level 61, r at next level, right associativity).

(** ** Methods of CounterCore *)

Definition _update_count (delta : Z) (s : CounterCore) : CounterCore :=
  if negb (is_paused (settings s))
  then let s1 := with_count (count s + delta) s in put (UCount (count s1)) s1
  else s.

(** Step 2a of [_handle_input]: a sequence left idle for longer than
    [burst_idle_ms] is closed before the new press is counted into it. *)
Definition close_idle_sequence (current_time : Z) (s : CounterCore) : CounterCore :=
  let idle_duration := current_time - last_press_time s in
  if (burst_idle_ms (settings s) >? 0) && negb (last_press_time s =? 0) then
    if idle_duration >? burst_idle_ms (settings s) then
      let s1 :=
        if sequence_presses s >? 0 then
          let s' := with_burst_count_tracker (burst_count_tracker s + 1) s in
          put (UStatus (BurstCompleted (burst_count_tracker s') (amount (settings s')))) s'
        else s in
      with_sequence_presses 0 s1
    else s
  else s.

(** Step 2b: the press joins the sequence and the press clock is set. *)
Definition open_press (current_time : Z) (s : CounterCore) : CounterCore :=
  with_last_press_time current_time
    (with_sequence_presses (sequence_presses s + 1) s).

(** Steps 2a and 2b together: what runs before the count logic. *)
Definition prelude (current_time : Z) (s : CounterCore) : CounterCore :=
  open_press current_time (close_idle_sequence current_time s).

(** Step 3 of [_handle_input]. *)
Definition apply_count_logic (s : CounterCore) : result :=
  if burst_idle_ms (settings s) =? 0 then
    if amount (settings s) =? 0 then Raised ZeroDivisionError s
    else if sequence_presses s mod amount (settings s) =? 0 then
      Ok (put (UStatus (MultiClickCount (amount (settings s)))) (_update_count 1 s))
    else Ok s
  else if amount (settings s) =? 1 then
    if sequence_presses s =? 1 then
      Ok (put (UStatus BurstCountFirstPress) (_update_count 1 s))
    else Ok s
  else if amount (settings s) >? 1 then
    if (sequence_presses s =? 1)
       && (burst_count_tracker s >=? amount (settings s)) then
      Ok (with_burst_count_tracker 0
            (put (UStatus (MultiBurstCount (amount (settings s))))
               (_update_count 1 s)))
    else Ok s
  else Ok s.

(** [_handle_input], with the reading of the clock as argument. *)
Definition _handle_input (current_time : Z) (s : CounterCore) : result :=
  if is_rapid_mode (settings s) then
    Ok (put (UStatus RapidPlusOne)
          (with_burst_count_tracker 0
             (with_sequence_presses 0
                (with_last_press_time current_time (_update_count 1 s)))))
  else
    s1 <- apply_count_logic (prelude current_time s) ;;
    Ok (put (USequencePresses (sequence_presses s1)) s1).

(** [_teardown_hooks] and [_setup_hooks].  [HOOK_AVAILABLE] is the module
    constant set by the import of the [keyboard] and [mouse] packages.  The
    registry of global hotkeys lives in the [keyboard] package, not in the
    core; what the hotkeys call is [_update_count], [set_count],
    [toggle_pause] and a put on [event_q]. *)
Definition _teardown_hooks (HOOK_AVAILABLE : bool) (s : CounterCore) : CounterCore :=
  if negb HOOK_AVAILABLE then s
  else with_mouse_hook false (with_key_hook false s).

Definition _setup_hooks (HOOK_AVAILABLE : bool) (s : CounterCore) : CounterCore :=
  if negb HOOK_AVAILABLE then s
  else
    let s1 := _teardown_hooks HOOK_AVAILABLE s in
    match input_type (settings s1) with
    | keyboard =>
        put (UStatus (TrackingKey (input_code (settings s1)))) (with_key_hook true s1)
    | mouse =>
        put (UStatus (TrackingMouse (input_code (settings s1)))) (with_mouse_hook true s1)
    end.

(** [CounterCore.__init__]. *)
Definition CounterCore_init (HOOK_AVAILABLE : bool) (c : Settings) : CounterCore :=
  _setup_hooks HOOK_AVAILABLE
    {| settings := c; count := cfg_count c; is_running := true;
       update_q := []; event_q := []; setting_q := [];
       sequence_presses := 0; last_press_time := 0; burst_count_tracker := 0;
       last_scroll_time := 0; key_hook := false; mouse_hook := false |}.

(** Events of the [keyboard] package. *)
Inductive key_event_type : Type := KEY_DOWN | KEY_UP.
Record KeyboardEvent : Type := mkKeyboardEvent {
  event_type : key_event_type;
  scan_code : Z
}.

(** Events of the [mouse] package. *)
Inductive button_event_type : Type := DOWN | UP | DOUBLE.
Inductive button_name : Type := LEFT | MIDDLE | RIGHT | X | X2.
Inductive MouseEvent : Type :=
| ButtonEvent (ty : button_event_type) (button : button_name)
| WheelEvent (delta : Z)
| MoveEvent (x y : Z).

Definition button_name_eqb (a b : button_name) : bool :=
  match a, b with
  | LEFT, LEFT | MIDDLE, MIDDLE | RIGHT, RIGHT | X, X | X2, X2 => true
  | _, _ => false
  end.

(** [button_name_map.get(code)]. *)
Definition button_name_map (code : Z) : option button_name :=
  if code =? 1 then Some LEFT
  else if code =? 2 then Some MIDDLE
  else if code =? 3 then Some RIGHT
  else if code =? 4 then Some X
  else if code =? 5 then Some X2
  else None.

Definition _key_callback (event : KeyboardEvent) (now : Z) (s : CounterCore) : result :=
  match event_type event with
  | KEY_DOWN =>
      if scan_code event =? input_code (settings s) then _handle_input now s
      else Ok s
  | KEY_UP => Ok s
  end.

(** The tracked wheel direction: code 10 is "up", code 11 is "down". *)
Definition wheel_tracked (delta : Z) (c : Settings) : bool :=
  ((delta >? 0) && (input_code c =? 10)) || ((delta <? 0) && (input_code c =? 11)).

(** [_mouse_callback].  A wheel event reads the clock twice: [scroll_now]
    in the callback for the debounce, [now] inside [_handle_input]. *)
Definition _mouse_callback (event : MouseEvent) (scroll_now now : Z)
    (s : CounterCore) : result :=
  match event with
  | ButtonEvent DOWN button =>
      match button_name_map (input_code (settings s)) with
      | Some target => if button_name_eqb button target then _handle_input now s else Ok s
      | None => Ok s
      end
  | ButtonEvent _ _ => Ok s
  | WheelEvent delta =>
      if wheel_tracked delta (settings s) then
        if scroll_now - last_scroll_time s <? scroll_debounce_ms then Ok s
        else _handle_input now (with_last_scroll_time scroll_now s)
      else Ok s
  | MoveEvent _ _ => Ok s
  end.

(** The body of the [try] in [run], once [get_nowait] has returned
    [new_settings]. *)
Definition replace_settings (HOOK_AVAILABLE : bool) (new_settings : Settings)
    (s : CounterCore) : CounterCore :=
  let s1 := with_settings new_settings s in
  let s2 := with_count (cfg_count new_settings) s1 in
  let s3 := with_sequence_presses 0 s2 in
  let s4 := with_burst_count_tracker 0 s3 in
  let s5 := _setup_hooks HOOK_AVAILABLE s4 in
  let s6 := put (UCount (count s5)) s5 in
  put (UPaused (is_paused (settings s6))) s6.

(** [run] on entry, before the loop. *)
Definition run_enter (s : CounterCore) : CounterCore :=
  put (UStatus CoreStarted) s.

(** One pass of the [while] loop of [run] (the sleep apart). *)
Definition run_iteration (HOOK_AVAILABLE : bool) (s : CounterCore) : CounterCore :=
  match setting_q s with
  | [] => s
  | new_settings :: q =>
      replace_settings HOOK_AVAILABLE new_settings (with_setting_q q s)
  end.

Definition stop (HOOK_AVAILABLE : bool) (s : CounterCore) : CounterCore :=
  _teardown_hooks HOOK_AVAILABLE (with_is_running false s).

Definition set_count (new_count : Z) (s : CounterCore) : CounterCore :=
  let s1 := with_count new_count s in
  let s2 := put (UCount (count s1)) s1 in
  with_burst_count_tracker 0 (with_sequence_presses 0 s2).

Definition toggle_pause (s : CounterCore) : CounterCore :=
  let s1 := with_settings (set_is_paused (negb (is_paused (settings s))) (settings s)) s in
  put (UPaused (is_paused (settings s1))) s1.

Definition update_settings (new_settings : Settings) (s : CounterCore) : CounterCore :=
  with_setting_q (setting_q s ++ [new_settings]) s.

(** ** Streams of tracked presses *)

(** The tracked input pressed at each clock reading of [ts], in order.
    The run ends at the first press that raises. *)
Fixpoint run_inputs (ts : list Z) (s : CounterCore) : result :=
  match ts with
  | [] => Ok s
  | t :: ts' => s1 <- _handle_input t s ;; run_inputs ts' s1
  end.

(** By how much each press of [ts] moved [count]. *)
Fixpoint deltas (ts : list Z) (s : CounterCore) : list Z :=
  match ts with
  | [] => []
  | t :: ts' =>
      match _handle_input t s with
      | Ok s1 => (count s1 - count s) :: deltas ts' s1
      | Raised _ s1 => [count s1 - count s]
      end
  end.

(** Consecutive presses, the first one following a press at [prev], with
    no gap longer than [T]: they stay in one sequence. *)
Fixpoint tight (T prev : Z) (ts : list Z) : bool :=
  match ts with
  | [] => true
  | t :: ts' => (t - prev <=? T) && tight T t ts'
  end.

Definition all_positive (ts : list Z) : bool := forallb (fun t => 0 <? t) ts.

(** ** The operations of the core, as one type *)

Inductive op : Type :=
| Input (now : Z)                      (* a tracked press reaches [_handle_input] *)
| Increment                            (* hotkey [=] *)
| Decrement                            (* hotkey [-] *)
| SetCount (n : Z)
| TogglePause
| Replace (new_settings : Settings).   (* [run] takes it from [setting_q] *)

Definition step (HOOK_AVAILABLE : bool) (o : op) (s : CounterCore) : result :=
  match o with
  | Input now => _handle_input now s
  | Increment => Ok (_update_count 1 s)
  | Decrement => Ok (_update_count (-1) s)
  | SetCount n => Ok (set_count n s)
  | TogglePause => Ok (toggle_pause s)
  | Replace c => Ok (replace_settings HOOK_AVAILABLE c s)
  end.

(** ** Settings ingestion: the control panel *)

(** The Tk variables [apply_inputs] reads. *)
Record PanelVars : Type := mkPanelVars {
  rapid_mode_var : bool;
  amount_var : Z;
  burst_idle_var : Z;
  font_size_var : Z;
  text_color_var : string;
  bg_color_var : string;
  bold_var : bool;
  transparent_var : bool;
  opacity_var : Q              (* per cent *)
}.

Definition clamp_opacity (q : Q) : Q := Qmax (10 # 100) (Qmin 1 q).

(** [ControlPanel.apply_inputs]: the fields it writes into the panel's
    [Settings] object; the object is then handed to
    [core.update_settings].  The variables are read at their declared
    types, so the [except] branch of the opacity (a [get] that raises) is
    not taken. *)
Definition apply_inputs (v : PanelVars) (c : Settings) : Settings :=
  let c := set_is_rapid_mode (rapid_mode_var v) c in
  let c := set_amount (Z.max 1 (amount_var v)) c in
  let c := set_burst_idle_ms (Z.max 0 (burst_idle_var v)) c in
  let c := set_font_size (font_size_var v) c in
  let c := set_text_color (text_color_var v) c in
  let c := set_bg_color (bg_color_var v) c in
  let c := set_is_bold (bold_var v) c in
  let c := set_is_transparent (transparent_var v) c in
  set_opacity (clamp_opacity (opacity_var v / 100)%Q) c.

Definition panel_apply (v : PanelVars) (c : Settings) (core : CounterCore)
    : Settings * CounterCore :=
  let c' := apply_inputs v c in (c', update_settings c' core).

(** ** Settings ingestion: the persisted file *)

(** The values of the JSON object in [auratrac_lite.json], as [json.load]
    gives them: [int], [float], [bool], [str], [None], [list] and [dict]. *)
#[warnings="-register-all"]
Inductive json : Type :=
| JInt (n : Z)
| JNum (q : Q)
| JBool (b : bool)
| JStr (s : string)
| JNull
| JArr (items : list json)
| JObj (members : list (string * json)).

(** A Python [dict] with string keys, in insertion order. *)
Definition dict : Type := list (string * json).

Fixpoint dict_get (k : string) (d : dict) : option json :=
  match d with
  | [] => None
  | (k', v) :: d' => if String.eqb k k' then Some v else dict_get k d'
  end.

Fixpoint dict_del (k : string) (d : dict) : dict :=
  match d with
  | [] => []
  | (k', v) :: d' => if String.eqb k k' then d' else (k', v) :: dict_del k d'
  end.

(** [d[k] = v]: in place when the key is there, at the end otherwise. *)
Fixpoint dict_set (k : string) (v : json) (d : dict) : dict :=
  match d with
  | [] => [(k, v)]
  | (k', v') :: d' =>
      if String.eqb k k' then (k, v) :: d' else (k', v') :: dict_set k v d'
  end.

(** What one turn of the loop [for k, v in data.items()] does. *)
Inductive setattr_outcome : Type :=
| AttrSet (c : Settings)   (* the loop goes on, with the object as it now is *)
| AttrRaises               (* [setattr] raises: on to the [except] branch *)
| AttrNotModelled.         (* outside the embedding, see below *)

(** [if hasattr(settings, k): setattr(settings, k, v)].

    - [k] names a field: [setattr] stores [v] whatever its type.  The
      record holds each field at the type the dataclass declares, so a [v]
      of that type is stored, and a [v] of another type (an [int] for the
      float [opacity] too, whose conversion can overflow) is
      [AttrNotModelled]: the object would hold a value the record cannot.
    - [k] is [__class__]: [hasattr] is true and [setattr] raises
      [TypeError], no JSON value being a class.
    - [k] starts with two underscores otherwise: whether the object has
      the attribute, and what assigning it does, is Python's [object], not
      this program: [AttrNotModelled].
    - any other [k]: an instance of the dataclass has no such attribute
      (its attributes are its fields and the double-underscore names of its
      class), [hasattr] is false and nothing happens. *)
Definition setattr_if_hasattr (k : string) (v : json) (c : Settings) : setattr_outcome :=
  if String.eqb k "input_type" then
    match v with
    | JStr s => if String.eqb s "keyboard" then AttrSet (set_input_type keyboard c)
                else if String.eqb s "mouse" then AttrSet (set_input_type mouse c)
                else AttrNotModelled
    | _ => AttrNotModelled
    end
  else if String.eqb k "input_code" then
    match v with JInt n => AttrSet (set_input_code n c) | _ => AttrNotModelled end
  else if String.eqb k "is_rapid_mode" then
    match v with JBool b => AttrSet (set_is_rapid_mode b c) | _ => AttrNotModelled end
  else if String.eqb k "amount" then
    match v with JInt n => AttrSet (set_amount n c) | _ => AttrNotModelled end
  else if String.eqb k "burst_idle_ms" then
    match v with JInt n => AttrSet (set_burst_idle_ms n c) | _ => AttrNotModelled end
  else if String.eqb k "font_size" then
    match v with JInt n => AttrSet (set_font_size n c) | _ => AttrNotModelled end
  else if String.eqb k "text_color" then
    match v with JStr s => AttrSet (set_text_color s c) | _ => AttrNotModelled end
  else if String.eqb k "bg_color" then
    match v with JStr s => AttrSet (set_bg_color s c) | _ => AttrNotModelled end
  else if String.eqb k "is_bold" then
    match v with JBool b => AttrSet (set_is_bold b c) | _ => AttrNotModelled end
  else if String.eqb k "is_transparent" then
    match v with JBool b => AttrSet (set_is_transparent b c) | _ => AttrNotModelled end
  else if String.eqb k "opacity" then
    match v with JNum q => AttrSet (set_opacity q c) | _ => AttrNotModelled end
  else if String.eqb k "is_paused" then
    match v with JBool b => AttrSet (set_is_paused b c) | _ => AttrNotModelled end
  else if String.eqb k "count" then
    match v with JInt n => AttrSet (set_cfg_count n c) | _ => AttrNotModelled end
  else if String.eqb k "__class__" then AttrRaises
  else if String.prefix "__" k then AttrNotModelled
  else AttrSet c.

(** How the loop over the items ends. *)
Inductive items_outcome : Type :=
| ItemsDone (c : Settings)      (* every item handled *)
| ItemsRaised (c : Settings)    (* a [setattr] raised; [c] is the object then *)
| ItemsNotModelled.

Fixpoint setattr_items (d : dict) (c : Settings) : items_outcome :=
  match d with
  | [] => ItemsDone c
  | (k, v) :: d' =>
      match setattr_if_hasattr k v c with
      | AttrSet c' => setattr_items d' c'
      | AttrRaises => ItemsRaised c
      | AttrNotModelled => ItemsNotModelled
      end
  end.

(** [load_or_default].  The argument is the object read from the file:
    [None] when the file does not exist, [json.load] fails or what it
    gives is not an object (the defaults are returned in each case).  When
    a [setattr] raises, the [except] branch returns the object as the loop
    left it, past the two clamps.  The result is [None] where the loop is
    outside the embedding ([AttrNotModelled]). *)
Definition load_or_default (file : option dict) : option Settings :=
  match file with
  | None => Some default_settings
  | Some data =>
      let data :=
        match dict_get "group_n" data with
        | Some g => dict_set "amount" g (dict_del "group_n" data)
        | None => data
        end in
      match setattr_items data default_settings with
      | ItemsDone c =>
          let c := set_amount (Z.max 1 (amount c)) c in
          Some (set_opacity (clamp_opacity (opacity c)) c)
      | ItemsRaised c => Some c
      | ItemsNotModelled => None
      end
  end.

(** The core with the pause flag of its settings forced to [b]. *)
Definition paused_as (b : bool) (s : CounterCore) : CounterCore :=
  with_settings (set_is_paused b (settings s)) s.

(** ** Modes, and the cores used as examples *)

(** The 1-based positions of [n] presses. *)
Definition positions (n : nat) : list Z := map Z.of_nat (List.seq 1 n).

(** The settings of [s] select Multi-Click with [amount = N], pause flag
    clear. *)
Definition multiclick_mode (N : Z) (s : CounterCore) : Prop :=
  is_rapid_mode (settings s) = false /\ burst_idle_ms (settings s) = 0 /\
  amount (settings s) = N /\ is_paused (settings s) = false.

(** A core started on Multi-Click settings with [amount = 3]. *)
Definition multiclick3_core : CounterCore :=
  CounterCore_init true (set_amount 3 (set_is_rapid_mode false default_settings)).

(** A paused core showing 5. *)
Definition paused_core : CounterCore :=
  CounterCore_init true (set_is_paused true (set_cfg_count 5 default_settings)).

(** A core tracking the wheel, scrolled up at clock reading 1000. *)
Definition wheel_core : CounterCore :=
  state_of (_mouse_callback (WheelEvent 1) 1000 1000
    (CounterCore_init true
       (set_input_code 10 (set_input_type mouse default_settings)))).

(** The settings of [s] select the modes with an idle time: not rapid,
    [burst_idle_ms = T], [amount = N] (Burst for [N = 1], Multi-Burst for
    [N > 1]), pause flag clear. *)
Definition idle_mode (T N : Z) (s : CounterCore) : Prop :=
  is_rapid_mode (settings s) = false /\ burst_idle_ms (settings s) = T /\
  amount (settings s) = N /\ is_paused (settings s) = false.

(** The press [t] opens a sequence in [s], [b] being the number of bursts
    completed once the press has closed the sequence before it: either no
    sequence is in progress, or the one in progress has been idle for
    longer than [T]. *)
Definition opens (T t : Z) (s : CounterCore) (b : Z) : Prop :=
  (sequence_presses s = 0 /\ b = burst_count_tracker s) \/
  (1 <= sequence_presses s /\ last_press_time s <> 0 /\
   T < t - last_press_time s /\ b = burst_count_tracker s + 1).

(** A core started on Multi-Burst settings: idle time 500 ms, [amount = 2]. *)
Definition multiburst2_core : CounterCore :=
  CounterCore_init true
    (set_amount 2 (set_burst_idle_ms 500 (set_is_rapid_mode false default_settings))).

(** A core started on Burst settings: idle time 500 ms, [amount = 1]. *)
Definition burst_core : CounterCore :=
  CounterCore_init true
    (set_burst_idle_ms 500 (set_is_rapid_mode false default_settings)).

(** A core started on Multi-Burst settings: idle time 500 ms, [amount = 3]. *)
Definition multiburst3_core : CounterCore :=
  CounterCore_init true
    (set_amount 3 (set_burst_idle_ms 500 (set_is_rapid_mode false default_settings))).

(** A settings file with a negative idle time. *)
Definition negative_idle_file : dict :=
  [("is_rapid_mode"%string, JBool false); ("amount"%string, JInt 0);
   ("burst_idle_ms"%string, JInt (-5))].

(** The panel showing the values of that file. *)
Definition negative_idle_vars : PanelVars :=
  {| rapid_mode_var := false; amount_var := 0; burst_idle_var := -5;
     font_size_var := 48; text_color_var := "#FFD700"; bg_color_var := "#000000";
     bold_var := true; transparent_var := true; opacity_var := 85%Q |}.

(** ** More passes of the loop, more operations *)

(** [n] passes of the [while] loop of [run]. *)
Fixpoint run_passes (HOOK_AVAILABLE : bool) (n : nat) (s : CounterCore) : CounterCore :=
  match n with
  | O => s
  | S n' => run_passes HOOK_AVAILABLE n' (run_iteration HOOK_AVAILABLE s)
  end.

(** Operations applied one after the other; one that raises leaves the
    fields as they were at the raise, and the next one goes on from
    there. *)
Fixpoint run_ops (HOOK_AVAILABLE : bool) (os : list op) (s : CounterCore) : CounterCore :=
  match os with
  | [] => s
  | o :: os' => run_ops HOOK_AVAILABLE os' (state_of (step HOOK_AVAILABLE o s))
  end.

Definition is_replace (o : op) : bool :=
  match o with Replace _ => true | _ => false end.

(** Wheel events of one direction [delta], each with the two readings of
    the clock it causes, delivered in order to [_mouse_callback]. *)
Fixpoint wheel_ticks (delta : Z) (ticks : list (Z * Z)) (s : CounterCore) : CounterCore :=
  match ticks with
  | [] => s
  | (scroll_now, now) :: ticks' =>
      wheel_ticks delta ticks'
        (state_of (_mouse_callback (WheelEvent delta) scroll_now now s))
  end.

(** ** Bursts of presses *)

(** A burst: its first press and the presses after it. *)
Definition burst : Type := (Z * list Z)%type.

Definition presses (bs : list burst) : list Z :=
  flat_map (fun b : burst => fst b :: snd b) bs.

(** Each burst of [bs] is [tight], and starts more than [T] after the last
    press before it ([prev] for the first burst), a press whose reading is
    not 0. *)
Fixpoint separated (T prev : Z) (bs : list burst) : bool :=
  match bs with
  | [] => true
  | b :: bs' =>
      negb (prev =? 0) && (fst b - prev >? T) && tight T (fst b) (snd b)
      && separated T (last (snd b) (fst b)) bs'
  end.

(** 1 at the first press of each burst, 0 at the others. *)
Definition first_press_marks (bs : list burst) : list Z :=
  flat_map (fun b : burst => 1 :: repeat 0 (List.length (snd b))) bs.

(** ** The overlay window *)

(** Python's [str] on an [int]. *)
Definition str (n : Z) : string := NilEmpty.string_of_int (Z.to_int n).

(** The overlay: the text variable of its label, the position of the
    window on the screen, and the offsets kept during a drag. *)
Record Overlay : Type := mkOverlay {
  count_var : string;
  winfo_x : Z;
  winfo_y : Z;
  _drag_off_x : Z;
  _drag_off_y : Z
}.

(** [Overlay.__init__], then the [geometry] call of [main]. *)
Definition Overlay_init (c : Settings) (root_x root_y : Z) : Overlay :=
  {| count_var := str (cfg_count c); winfo_x := root_x; winfo_y := root_y;
     _drag_off_x := 0; _drag_off_y := 0 |}.

(** [update_count]: [text] is [str(new_count)]. *)
Definition update_count (text : string) (o : Overlay) : Overlay :=
  mkOverlay text (winfo_x o) (winfo_y o) (_drag_off_x o) (_drag_off_y o).

(** The pointer position of a Tk event, in screen coordinates. *)
Record PointerEvent : Type := mkPointerEvent { x_root : Z; y_root : Z }.

Definition _start_drag (event : PointerEvent) (o : Overlay) : Overlay :=
  mkOverlay (count_var o) (winfo_x o) (winfo_y o)
    (x_root event - winfo_x o) (y_root event - winfo_y o).

(** [_do_drag]: [geometry] moves the window to [(new_x, new_y)]. *)
Definition _do_drag (event : PointerEvent) (o : Overlay) : Overlay :=
  let new_x := x_root event - _drag_off_x o in
  let new_y := y_root event - _drag_off_y o in
  mkOverlay (count_var o) new_x new_y (_drag_off_x o) (_drag_off_y o).

Definition drag_motions (events : list PointerEvent) (o : Overlay) : Overlay :=
  fold_left (fun o' e => _do_drag e o') events o.

(** The loop of [_poll_core_updates] over the updates taken from the
    queue; [core_count] is [self.core.count], read when a ["paused"] update
    is handled. *)
Fixpoint poll_updates (q : list update) (core_count : Z) (o : Overlay) : Overlay :=
  match q with
  | [] => o
  | u :: q' =>
      poll_updates q' core_count
        match u with
        | UCount value => update_count (str value) o
        | UPaused value =>
            update_count (if value then "PAUSED"%string else str core_count) o
        | UStatus _ => o
        | USequencePresses _ => o
        end
  end.

(** [_poll_core_updates]: the queue is emptied. *)
Definition _poll_core_updates (core : CounterCore) (o : Overlay)
    : CounterCore * Overlay :=
  (with_update_q [] core, poll_updates (update_q core) (count core) o).

(** What the label shows when it follows the core. *)
Definition label_of (s : CounterCore) : string :=
  if is_paused (settings s) then "PAUSED"%string else str (count s).

(** The label the overlay will show once it has polled the queue of [s]. *)
Definition label_after_poll (s : CounterCore) (o : Overlay) : string :=
  count_var (snd (_poll_core_updates s o)).

(** ** The control panel: capture, pending apply, save *)

(** The control panel: its [Settings] object, its Tk variables, and its two
    flags.  The text variables of the labels ([input_var], [status]) hold
    names the [keyboard] package gives and are left out. *)
Record ControlPanel : Type := mkPanel {
  panel_settings : Settings;
  panel_vars : PanelVars;
  is_capturing : bool;
  _pending_apply_settings : bool
}.

Definition _apply_pending_settings (p : ControlPanel) : ControlPanel :=
  mkPanel (panel_settings p) (panel_vars p) (is_capturing p) true.

Definition _check_pending_apply (pc : ControlPanel * CounterCore)
    : ControlPanel * CounterCore :=
  let (p, core) := pc in
  if _pending_apply_settings p then
    let (c', core') := panel_apply (panel_vars p) (panel_settings p) core in
    (mkPanel c' (panel_vars p) (is_capturing p) false, core')
  else pc.






Definition input_kind_name (k : input_kind) : string :=
  match k with keyboard => "keyboard" | mouse => "mouse" end.

(** [asdict(settings)]. *)
Definition asdict (c : Settings) : dict :=
  [("input_type"%string, JStr (input_kind_name (input_type c)));
   ("input_code"%string, JInt (input_code c));
   ("is_rapid_mode"%string, JBool (is_rapid_mode c));
   ("amount"%string, JInt (amount c));
   ("burst_idle_ms"%string, JInt (burst_idle_ms c));
   ("font_size"%string, JInt (font_size c));
   ("text_color"%string, JStr (text_color c));
   ("bg_color"%string, JStr (bg_color c));
   ("is_bold"%string, JBool (is_bold c));
   ("is_transparent"%string, JBool (is_transparent c));
   ("opacity"%string, JNum (opacity c));
   ("is_paused"%string, JBool (is_paused c));
   ("count"%string, JInt (cfg_count c))].

(** [save_settings]: the inputs are applied, and what is written to the
    file is the settings without [count] and [is_paused]. *)
Definition save_settings (pc : ControlPanel * CounterCore)
    : ControlPanel * CounterCore * dict :=
  let (p, core) := pc in
  let (c', core') := panel_apply (panel_vars p) (panel_settings p) core in
  let save_data := dict_del "is_paused" (dict_del "count" (asdict c')) in
  (mkPanel c' (panel_vars p) (is_capturing p) (_pending_apply_settings p),
   core', save_data).

(** The names of the fields of [Settings]. *)
Definition settings_fields : list string :=
  ["input_type"; "input_code"; "is_rapid_mode"; "amount"; "burst_idle_ms";
   "font_size"; "text_color"; "bg_color"; "is_bold"; "is_transparent";
   "opacity"; "is_paused"; "count"]%string.

Definition is_settings_field (k : string) : bool :=
  existsb (String.eqb k) settings_fields.

(** [hasattr(settings, k)]: true of the fields and of [__class__], false
    of every name that does not start with two underscores; [None] for the
    other double-underscore names, which Python's [object] decides. *)
Definition hasattr_settings (k : string) : option bool :=
  if is_settings_field k then Some true
  else if String.eqb k "__class__" then Some true
  else if String.prefix "__" k then None
  else Some false.

(** The entries the loader passes over: the key is no attribute of the
    object and is not the legacy key. *)
Definition loader_skips (kv : string * json) : bool :=
  match hasattr_settings (fst kv) with
  | Some false => negb (String.eqb (fst kv) "group_n")
  | _ => false
  end.

Definition loader_reads (kv : string * json) : bool := negb (loader_skips kv).

(** No key of [d] starts with two underscores. *)
Definition plain_keys (d : dict) : bool :=
  forallb (fun kv : string * json => negb (String.prefix "__" (fst kv))) d.

(** A file with a [__class__] entry after an amount of 0. *)
Definition class_key_file : dict :=
  [("is_rapid_mode"%string, JBool false); ("amount"%string, JInt 0);
   ("__class__"%string, JInt 5); ("burst_idle_ms"%string, JInt 250)].


(** A file from before [group_n] was renamed [amount]. *)
Definition legacy_file : dict :=
  [("is_rapid_mode"%string, JBool false); ("group_n"%string, JInt 5);
   ("theme"%string, JStr "dark")].

(** The updates the overlay passes over. *)
Definition silent (u : update) : bool :=
  match u with
  | UStatus _ | USequencePresses _ => true
  | UCount _ | UPaused _ => false
  end.

(** 1 at the first press of the last burst, 0 at every other press. *)
Fixpoint last_burst_marks (bs : list burst) : list Z :=
  match bs with
  | [] => []
  | b :: bs' =>
      match bs' with
      | [] => 1 :: repeat 0 (List.length (snd b))
      | _ :: _ => repeat 0 (S (List.length (snd b))) ++ last_burst_marks bs'
      end
  end.

(** The Multi-Burst core of the examples after a first press at 1000. *)
Definition multiburst3_pressed : CounterCore :=
  state_of (_handle_input 1000 multiburst3_core).

(** Two cores with the same sequence bookkeeping under the same mode
    settings; the count, the queues and the pause flag may differ. *)
Definition same_book (s1 s2 : CounterCore) : Prop :=
  sequence_presses s1 = sequence_presses s2 /\
  burst_count_tracker s1 = burst_count_tracker s2 /\
  last_press_time s1 = last_press_time s2 /\
  is_rapid_mode (settings s1) = is_rapid_mode (settings s2) /\
  burst_idle_ms (settings s1) = burst_idle_ms (settings s2) /\
  amount (settings s1) = amount (settings s2).

(** A core loaded from the file with the negative idle time, after a
    first press. *)
Definition negative_idle_pressed : CounterCore :=
  match load_or_default (Some negative_idle_file) with
  | Some c => state_of (_handle_input 1000 (CounterCore_init true c))
  | None => CounterCore_init true default_settings
  end.

(** * Properties *)

(** Case analysis on the tests of the methods, innermost test first, so
    that no field is read through a conditional. *)
Ltac inner_if :=
  match goal with
  | |- context [if ?b then _ else _] =>
      lazymatch b with
      | context [if _ then _ else _] => fail
      | _ => destruct b eqn:?; cbv iota
      end
  end.

Ltac unfold_control :=
  unfold _handle_input, bind, apply_count_logic, prelude,
    close_idle_sequence, _update_count.

Ltac reduce_fields :=
  cbn [settings count is_running update_q event_q setting_q sequence_presses
       last_press_time burst_count_tracker last_scroll_time key_hook mouse_hook
       with_settings with_count with_update_q with_sequence_presses
       with_last_press_time with_burst_count_tracker with_last_scroll_time
       with_key_hook with_mouse_hook with_setting_q with_is_running
       put open_press state_of raised paused_as negb
       is_paused amount burst_idle_ms is_rapid_mode input_code input_type
       cfg_count set_is_paused] in *.

Ltac bool_to_Z :=
  repeat match goal with
         | H : (_ && _) = true |- _ => apply andb_true_iff in H; destruct H
         | H : (_ && _) = false |- _ => apply andb_false_iff in H; destruct H
         | H : (_ || _) = true |- _ => apply orb_true_iff in H; destruct H
         | H : (_ || _) = false |- _ => apply orb_false_iff in H; destruct H
         | H : negb _ = true |- _ => apply negb_true_iff in H
         | H : negb _ = false |- _ => apply negb_false_iff in H
         | H : (_ =? _) = true |- _ => apply Z.eqb_eq in H
         | H : (_ =? _) = false |- _ => apply Z.eqb_neq in H
         | H : (_ >? _) = true |- _ => rewrite Z.gtb_ltb in H; apply Z.ltb_lt in H
         | H : (_ >? _) = false |- _ => rewrite Z.gtb_ltb in H; apply Z.ltb_ge in H
         | H : (_ >=? _) = true |- _ => rewrite Z.geb_leb in H; apply Z.leb_le in H
         | H : (_ >=? _) = false |- _ => rewrite Z.geb_leb in H; apply Z.leb_gt in H
         | H : (_ <? _) = true |- _ => apply Z.ltb_lt in H
         | H : (_ <? _) = false |- _ => apply Z.ltb_ge in H
         | H : (_ <=? _) = true |- _ => apply Z.leb_le in H
         | H : (_ <=? _) = false |- _ => apply Z.leb_gt in H
         end.

(** Splits every test of a press, reads the fields, and leaves linear
    arithmetic. *)
Ltac by_cases :=
  unfold_control; repeat inner_if; reduce_fields;
  try reflexivity; try congruence;
  bool_to_Z; try congruence; try lia.

(** ** What a press leaves alone *)

Lemma handle_input_settings (t : Z) (s : CounterCore) :
  settings (state_of (_handle_input t s)) = settings s.
Proof. by_cases. Qed.

Lemma handle_input_last_scroll_time (t : Z) (s : CounterCore) :
  last_scroll_time (state_of (_handle_input t s)) = last_scroll_time s.
Proof. by_cases. Qed.

Lemma handle_input_last_press_time (t : Z) (s : CounterCore) :
  last_press_time (state_of (_handle_input t s)) = t.
Proof. by_cases. Qed.

Lemma handle_input_paused_count (t : Z) (s : CounterCore) :
  is_paused (settings s) = true ->
  count (state_of (_handle_input t s)) = count s.
Proof. intros Hp. by_cases. Qed.

Lemma run_inputs_settings (ts : list Z) (s : CounterCore) :
  settings (state_of (run_inputs ts s)) = settings s.
Proof.
  revert s. induction ts as [|t ts IH]; intros s; simpl; [reflexivity|].
  pose proof (handle_input_settings t s) as Hs.
  destruct (_handle_input t s) as [s1|e s1]; simpl in *; [|exact Hs].
  rewrite IH. exact Hs.
Qed.

Lemma run_inputs_paused_count (ts : list Z) (s : CounterCore) :
  is_paused (settings s) = true ->
  count (state_of (run_inputs ts s)) = count s.
Proof.
  revert s. induction ts as [|t ts IH]; intros s Hp; simpl; [reflexivity|].
  pose proof (handle_input_settings t s) as Hs.
  pose proof (handle_input_paused_count t s Hp) as Hc.
  destruct (_handle_input t s) as [s1|e s1]; simpl in *; [|exact Hc].
  rewrite IH; [exact Hc|]. rewrite Hs. exact Hp.
Qed.

(** ** What the other operations leave alone *)

Lemma setup_hooks_fields (H : bool) (s : CounterCore) :
  let s' := _setup_hooks H s in
  settings s' = settings s /\ count s' = count s /\
  sequence_presses s' = sequence_presses s /\
  burst_count_tracker s' = burst_count_tracker s /\
  last_press_time s' = last_press_time s /\
  last_scroll_time s' = last_scroll_time s.
Proof.
  unfold _setup_hooks, _teardown_hooks.
  destruct H; cbv iota beta zeta; cbn [negb];
    [destruct (input_type _)|]; reduce_fields; repeat split; reflexivity.
Qed.

Lemma replace_settings_fields (H : bool) (c : Settings) (s : CounterCore) :
  let s' := replace_settings H c s in
  settings s' = c /\ count s' = cfg_count c /\
  sequence_presses s' = 0 /\ burst_count_tracker s' = 0 /\
  last_press_time s' = last_press_time s /\
  last_scroll_time s' = last_scroll_time s.
Proof.
  unfold replace_settings. cbv zeta.
  set (s4 := with_burst_count_tracker 0 _).
  destruct (setup_hooks_fields H s4) as (E1 & E2 & E3 & E4 & E5 & E6).
  cbv zeta in *. reduce_fields.
  rewrite E1, E2, E3, E4, E5, E6. subst s4. reduce_fields.
  repeat split; reflexivity.
Qed.

Lemma set_count_fields (n : Z) (s : CounterCore) :
  let s' := set_count n s in
  settings s' = settings s /\ count s' = n /\
  sequence_presses s' = 0 /\ burst_count_tracker s' = 0 /\
  last_press_time s' = last_press_time s /\
  last_scroll_time s' = last_scroll_time s.
Proof.
  unfold set_count. cbv zeta. reduce_fields. repeat split; reflexivity.
Qed.

Lemma toggle_pause_fields (s : CounterCore) :
  let s' := toggle_pause s in
  is_paused (settings s') = negb (is_paused (settings s)) /\
  count s' = count s /\
  sequence_presses s' = sequence_presses s /\
  burst_count_tracker s' = burst_count_tracker s /\
  last_press_time s' = last_press_time s /\
  last_scroll_time s' = last_scroll_time s.
Proof.
  unfold toggle_pause. cbv zeta. reduce_fields. repeat split; reflexivity.
Qed.

(** What [update_settings] has queued is what the next pass of [run]
    applies. *)
Lemma run_iteration_takes_update (H : bool) (c : Settings) (s : CounterCore) :
  setting_q s = [] ->
  run_iteration H (update_settings c s) = replace_settings H c s.
Proof.
  intros Hq. destruct s. cbn in Hq. subst.
  unfold run_iteration, update_settings. reflexivity.
Qed.

(** ** Pausing *)

(** The steps before the count logic never read the pause flag. *)
Lemma prelude_paused_as (b : bool) (t : Z) (s : CounterCore) :
  prelude t (paused_as b s) = paused_as b (prelude t s).
Proof.
  unfold prelude, close_idle_sequence. reduce_fields.
  repeat inner_if. all: reduce_fields. all: reflexivity.
Qed.

(** C4.  Whatever the press and the state of the accumulator, the press
    handled with the pause flag set leaves [sequence_presses],
    [burst_count_tracker] and [last_press_time] (and the outcome, normal or
    raised) exactly as the same press handled from the same state with the
    flag clear, and leaves [count] as it was.  Resuming credits nothing:
    after any run of presses handled while paused, [toggle_pause] clears
    the flag and [count] is still the count from before the run. *)
Theorem pause_freezes_count_not_bookkeeping :
  forall (now : Z) (s : CounterCore),
    (let rp := _handle_input now (paused_as true s) in
     let ru := _handle_input now (paused_as false s) in
     sequence_presses (state_of rp) = sequence_presses (state_of ru) /\
     burst_count_tracker (state_of rp) = burst_count_tracker (state_of ru) /\
     last_press_time (state_of rp) = last_press_time (state_of ru) /\
     raised rp = raised ru /\
     count (state_of rp) = count s) /\
    (forall ts : list Z,
       let s' := toggle_pause (state_of (run_inputs ts (paused_as true s))) in
       is_paused (settings s') = false /\ count s' = count s).
Proof.
  intros now s. split.
  - cbv zeta. unfold _handle_input. rewrite !prelude_paused_as.
    assert (Hc : count (prelude now s) = count s) by by_cases.
    revert Hc. generalize (prelude now s) as p. intros p Hc.
    unfold bind, apply_count_logic, _update_count.
    reduce_fields. repeat inner_if. all: reduce_fields.
    all: repeat split; congruence.
  - intros ts. cbv zeta.
    destruct (toggle_pause_fields (state_of (run_inputs ts (paused_as true s))))
      as (Hp & Hc & _).
    cbv zeta in *. rewrite Hp, Hc.
    rewrite run_inputs_settings, run_inputs_paused_count by reflexivity.
    split; reflexivity.
Qed.

(** ** Runs of presses *)

Lemma not_raised_Ok (r : result) : raised r = false -> r = Ok (state_of r).
Proof. destruct r; simpl; [reflexivity | discriminate]. Qed.

Lemma positions_S (n : nat) (f : Z -> Z) :
  map f (positions (S n)) = f 1 :: map (fun i => f (1 + i)) (positions n).
Proof.
  unfold positions. cbn [List.seq map]. f_equal.
  rewrite <- seq_shift, !map_map. apply map_ext. intros a. f_equal. lia.
Qed.

Lemma div_succ (q N : Z) :
  1 <= N -> (q + 1) / N = q / N + (if (q + 1) mod N =? 0 then 1 else 0).
Proof.
  intros HN. destruct ((q + 1) mod N =? 0) eqn:E; bool_to_Z.
  - Z.div_mod_to_equations. nia.
  - Z.div_mod_to_equations. nia.
Qed.

Lemma run_inputs_app (a b : list Z) (s : CounterCore) :
  raised (run_inputs a s) = false ->
  run_inputs (a ++ b) s = run_inputs b (state_of (run_inputs a s)).
Proof.
  revert s. induction a as [|t a IH]; intros s; cbn [run_inputs app]; [reflexivity|].
  destruct (_handle_input t s) as [s1|e s1]; cbn [bind]; [apply IH | discriminate].
Qed.

Lemma deltas_app (a b : list Z) (s : CounterCore) :
  raised (run_inputs a s) = false ->
  deltas (a ++ b) s = deltas a s ++ deltas b (state_of (run_inputs a s)).
Proof.
  revert s. induction a as [|t a IH]; intros s; cbn [run_inputs deltas app]; [reflexivity|].
  destruct (_handle_input t s) as [s1|e s1]; cbn [bind]; [|discriminate].
  intros R. rewrite IH by exact R. reflexivity.
Qed.

Lemma last_cons (t d : Z) (r : list Z) : last (t :: r) d = last r t.
Proof.
  revert t d. induction r as [|z r IH]; intros t d; [reflexivity|].
  change (last (t :: z :: r) d) with (last (z :: r) d).
  rewrite (IH z d). symmetry. apply IH.
Qed.

(** ** Multi-Click: [burst_idle_ms = 0] *)

Lemma multiclick_press (N t : Z) (s : CounterCore) :
  multiclick_mode N s -> 1 <= N ->
  raised (_handle_input t s) = false /\
  multiclick_mode N (state_of (_handle_input t s)) /\
  sequence_presses (state_of (_handle_input t s)) = sequence_presses s + 1 /\
  count (state_of (_handle_input t s)) =
    count s + (if (sequence_presses s + 1) mod N =? 0 then 1 else 0).
Proof.
  intros (Hr & Hi & Ha & Hp) HN. unfold multiclick_mode.
  rewrite handle_input_settings.
  repeat split; try assumption.
  - by_cases.
  - by_cases.
  - unfold_control. repeat inner_if. all: reduce_fields.
    all: bool_to_Z; try congruence; try lia.
    all: subst N; destruct (_ =? 0) eqn:E; bool_to_Z; congruence || lia.
Qed.

Lemma multiclick_run (N : Z) (ts : list Z) :
  1 <= N ->
  forall s : CounterCore,
    multiclick_mode N s ->
    raised (run_inputs ts s) = false /\
    sequence_presses (state_of (run_inputs ts s)) =
      sequence_presses s + Z.of_nat (List.length ts) /\
    count (state_of (run_inputs ts s)) =
      count s + ((sequence_presses s + Z.of_nat (List.length ts)) / N
                 - sequence_presses s / N) /\
    deltas ts s =
      map (fun i => if (sequence_presses s + i) mod N =? 0 then 1 else 0)
          (positions (List.length ts)).
Proof.
  intros HN. induction ts as [|t ts IH]; intros s Hm.
  - cbn. repeat split; try reflexivity; try lia.
    rewrite Z.add_0_r. lia.
  - destruct (multiclick_press N t s Hm HN) as (R1 & M1 & Q1 & C1).
    cbn [run_inputs deltas List.length]. rewrite positions_S.
    rewrite (not_raised_Ok _ R1) in *. cbn [bind state_of] in *.
    destruct (IH _ M1) as (R & Q & C & D).
    rewrite R, Q, C, D, Q1, C1.
    repeat split.
    + lia.
    + rewrite (div_succ (sequence_presses s) N HN).
      replace (sequence_presses s + 1 + Z.of_nat (List.length ts))
        with (sequence_presses s + Z.of_nat (S (List.length ts))) by lia. lia.
    + f_equal; [lia|]. apply map_ext. intros i.
      replace (sequence_presses s + 1 + i) with (sequence_presses s + (1 + i)) by lia.
      reflexivity.
Qed.

(** C3.  In Multi-Click mode (not rapid, [burst_idle_ms = 0]) with the
    pause flag clear and [amount = N >= 1], a press advances the count
    exactly when the new [sequence_presses] is a multiple of [N]; so from
    [sequence_presses = 0] (as a settings replacement or [set_count] leaves
    it) the presses that advance it are exactly the [N]-th, [2N]-th, ... and
    after [k * N] presses the count is [k] higher, whatever the clock
    readings [ts] of the presses. *)
Theorem multiclick_counts_every_Nth :
  forall (N : Z) (s : CounterCore),
    multiclick_mode N s -> 1 <= N ->
    (forall t : Z,
       raised (_handle_input t s) = false /\
       sequence_presses (state_of (_handle_input t s)) = sequence_presses s + 1 /\
       count (state_of (_handle_input t s)) =
         count s + (if sequence_presses (state_of (_handle_input t s)) mod N =? 0
                    then 1 else 0)) /\
    (sequence_presses s = 0 ->
     forall ts : list Z,
       raised (run_inputs ts s) = false /\
       deltas ts s = map (fun i => if i mod N =? 0 then 1 else 0)
                         (positions (List.length ts)) /\
       forall k : Z,
         Z.of_nat (List.length ts) = k * N ->
         count (state_of (run_inputs ts s)) = count s + k).
Proof.
  intros N s Hm HN. split.
  - intros t. destruct (multiclick_press N t s Hm HN) as (R & _ & Q & C).
    rewrite Q. auto.
  - intros H0 ts. destruct (multiclick_run N ts HN s Hm) as (R & Q & C & D).
    rewrite H0 in *. repeat split; [exact R | exact D |].
    intros k Hk. rewrite C, Hk. cbn [Z.add].
    rewrite Z.div_mul by lia. rewrite Z.div_0_l by lia. lia.
Qed.

Lemma multiclick_counts_every_Nth_witness :
  multiclick_mode 3 multiclick3_core /\ 1 <= 3 /\
  sequence_presses multiclick3_core = 0 /\
  count (state_of (run_inputs [10; 20; 5000; 5001; 5002; 9000] multiclick3_core))
    = count multiclick3_core + 2.
Proof.
  assert (Hm : multiclick_mode 3 multiclick3_core) by (repeat split).
  assert (HN : 1 <= 3) by lia.
  destruct (multiclick_counts_every_Nth 3 multiclick3_core Hm HN) as (_ & Hrun).
  destruct (Hrun eq_refl [10; 20; 5000; 5001; 5002; 9000]) as (_ & _ & Hk).
  split; [exact Hm|]. split; [exact HN|]. split; [reflexivity|].
  apply (Hk 2). reflexivity.
Defined.

(** ** Replacing the settings, setting the count *)

(** C6.  Taking new settings from [setting_q] (whatever their values, the
    current ones included) and [set_count] both leave [sequence_presses] and
    [burst_count_tracker] at 0; the replacement takes [count] from the
    incoming settings.  So a sequence in progress is not carried over: two
    presses into a Multi-Click sequence with [amount = 4], after the same
    settings are applied again the next press is press 1 of 4, and the count
    advances on the fourth press after the replacement, not on the second. *)
Theorem replacement_and_set_count_reset_sequence :
  forall (H : bool) (c : Settings) (n : Z) (s : CounterCore),
    (let s' := replace_settings H c s in
     sequence_presses s' = 0 /\ burst_count_tracker s' = 0 /\
     count s' = cfg_count c /\ settings s' = c) /\
    (let s' := set_count n s in
     sequence_presses s' = 0 /\ burst_count_tracker s' = 0 /\ count s' = n) /\
    (is_rapid_mode c = false -> burst_idle_ms c = 0 -> amount c = 4 ->
     is_paused c = false ->
     forall t1 t2 t3 t4 t5 t6 : Z,
       let s2 := state_of (run_inputs [t1; t2] (replace_settings H c s)) in
       let s3 := replace_settings H c s2 in
       sequence_presses s2 = 2 /\ count s2 = cfg_count c /\
       sequence_presses (state_of (_handle_input t3 s3)) = 1 /\
       deltas [t3; t4; t5; t6] s3 = [0; 0; 0; 1] /\
       count (state_of (run_inputs [t3; t4; t5; t6] s3)) = cfg_count c + 1).
Proof.
  intros H c n s.
  assert (Hrep : forall s0, is_rapid_mode c = false -> burst_idle_ms c = 0 ->
            amount c = 4 -> is_paused c = false ->
            multiclick_mode 4 (replace_settings H c s0) /\
            sequence_presses (replace_settings H c s0) = 0 /\
            count (replace_settings H c s0) = cfg_count c).
  { intros s0 Hr Hi Ha Hp.
    destruct (replace_settings_fields H c s0) as (E1 & E2 & E3 & _).
    cbv zeta in *. unfold multiclick_mode. rewrite E1. auto 8. }
  split; [|split].
  - destruct (replace_settings_fields H c s) as (E1 & E2 & E3 & E4 & _). auto.
  - destruct (set_count_fields n s) as (_ & E2 & E3 & E4 & _). auto.
  - intros Hr Hi Ha Hp t1 t2 t3 t4 t5 t6. cbv zeta.
    destruct (Hrep s Hr Hi Ha Hp) as (M1 & Q1 & C1).
    destruct (multiclick_run 4 [t1; t2] ltac:(lia) _ M1) as (_ & Q2 & C2 & _).
    set (s2 := state_of (run_inputs [t1; t2] (replace_settings H c s))) in *.
    destruct (Hrep s2 Hr Hi Ha Hp) as (M3 & Q3 & C3).
    destruct (multiclick_press 4 t3 _ M3 ltac:(lia)) as (_ & _ & Q4 & _).
    destruct (multiclick_run 4 [t3; t4; t5; t6] ltac:(lia) _ M3) as (_ & _ & C5 & D5).
    split; [|split; [|split; [|split]]].
    + rewrite Q2, Q1. reflexivity.
    + rewrite C2, C1, Q1. cbn. lia.
    + rewrite Q4, Q3. reflexivity.
    + rewrite D5, Q3. reflexivity.
    + rewrite C5, C3, Q3. cbn. lia.
Qed.

Lemma replacement_and_set_count_reset_sequence_witness :
  let c := set_amount 4 (set_is_rapid_mode false default_settings) in
  (is_rapid_mode c = false /\ burst_idle_ms c = 0 /\ amount c = 4 /\
   is_paused c = false) /\
  deltas [300; 400; 500; 600]
    (replace_settings true c
       (state_of (run_inputs [100; 200]
          (replace_settings true c (CounterCore_init true default_settings)))))
  = [0; 0; 0; 1].
Proof.
  cbv zeta. split; [repeat split|].
  destruct (replacement_and_set_count_reset_sequence true
              (set_amount 4 (set_is_rapid_mode false default_settings)) 0
              (CounterCore_init true default_settings)) as (_ & _ & Hs).
  destruct (Hs eq_refl eq_refl eq_refl eq_refl 100 200 300 400 500 600)
    as (_ & _ & _ & Hd & _).
  exact Hd.
Defined.

(** ** The count and the pause flag *)

(** C5, as stated, fails: [set_count 0] (hotkey [0]) on a paused core moves
    the count from 5 to 0 and puts the new count on [update_q], the pause
    flag being set before and after. *)
Lemma set_count_moves_count_while_paused :
  is_paused (settings paused_core) = true /\ count paused_core = 5 /\
  is_paused (settings (state_of (step true (SetCount 0) paused_core))) = true /\
  count (state_of (step true (SetCount 0) paused_core)) = 0 /\
  update_q (state_of (step true (SetCount 0) paused_core))
    = update_q paused_core ++ [UCount 0].
Proof. repeat split. Qed.

(** C5, amended.  For every operation of the core and every state: a
    tracked press and the increment and decrement hotkeys leave [count] as
    it is when the pause flag is set; [toggle_pause] leaves it as it is
    whatever the flag holds; [set_count] and the replacement of the settings
    overwrite it, with the given value and with the count of the incoming
    settings, whatever the flag holds. *)
Theorem paused_count_moves_only_by_overwrite :
  forall (H : bool) (o : op) (s : CounterCore),
    match o with
    | Input _ | Increment | Decrement =>
        is_paused (settings s) = true ->
        count (state_of (step H o s)) = count s
    | TogglePause => count (state_of (step H o s)) = count s
    | SetCount n => count (state_of (step H o s)) = n
    | Replace c => count (state_of (step H o s)) = cfg_count c
    end.
Proof.
  intros H o s. destruct o as [now| | |n| |c]; cbn [step state_of].
  - intros Hp. apply handle_input_paused_count, Hp.
  - intros Hp. unfold _update_count. rewrite Hp. reflexivity.
  - intros Hp. unfold _update_count. rewrite Hp. reflexivity.
  - apply set_count_fields.
  - apply toggle_pause_fields.
  - apply replace_settings_fields.
Qed.

Lemma paused_count_moves_only_by_overwrite_witness :
  (is_paused (settings paused_core) = true /\
   count (state_of (step true Increment paused_core)) = count paused_core) /\
  (is_paused (settings multiclick3_core) = false /\
   count (state_of (step true TogglePause multiclick3_core))
     = count multiclick3_core /\
   count (state_of (step true (SetCount 7) multiclick3_core)) = 7).
Proof.
  split; split.
  - reflexivity.
  - exact (paused_count_moves_only_by_overwrite true Increment paused_core eq_refl).
  - reflexivity.
  - split.
    + exact (paused_count_moves_only_by_overwrite true TogglePause multiclick3_core).
    + exact (paused_count_moves_only_by_overwrite true (SetCount 7) multiclick3_core).
Defined.

(** ** The wheel debounce *)

(** C7.  A wheel event in the tracked direction whose clock reading is
    less than [scroll_debounce_ms = 100] after [last_scroll_time] (the
    reading of the last accepted wheel event) returns with every field of
    the core as it was: no count, no sequence bookkeeping, no update put,
    [last_scroll_time] not moved.  From 100 ms on it is accepted: it sets
    [last_scroll_time] and is handled as a press; a second wheel event
    150 ms after an accepted one is accepted as well.  A key-down of the
    tracked scan code and a button-down of the tracked button are always
    handled as a press, whatever [last_scroll_time] holds. *)
Theorem wheel_debounce :
  (forall (delta scroll_now now : Z) (s : CounterCore),
     wheel_tracked delta (settings s) = true ->
     scroll_now - last_scroll_time s < 100 ->
     _mouse_callback (WheelEvent delta) scroll_now now s = Ok s) /\
  (forall (delta scroll_now now now' : Z) (s : CounterCore),
     wheel_tracked delta (settings s) = true ->
     100 <= scroll_now - last_scroll_time s ->
     let r1 := _mouse_callback (WheelEvent delta) scroll_now now s in
     let r2 := _mouse_callback (WheelEvent delta) (scroll_now + 150) now'
                 (state_of r1) in
     r1 = _handle_input now (with_last_scroll_time scroll_now s) /\
     r2 = _handle_input now'
            (with_last_scroll_time (scroll_now + 150) (state_of r1))) /\
  (forall (event : KeyboardEvent) (now ls : Z) (s : CounterCore),
     event_type event = KEY_DOWN ->
     scan_code event = input_code (settings s) ->
     _key_callback event now (with_last_scroll_time ls s)
       = _handle_input now (with_last_scroll_time ls s)) /\
  (forall (button : button_name) (scroll_now now ls : Z) (s : CounterCore),
     button_name_map (input_code (settings s)) = Some button ->
     _mouse_callback (ButtonEvent DOWN button) scroll_now now
       (with_last_scroll_time ls s)
       = _handle_input now (with_last_scroll_time ls s)).
Proof.
  split; [|split; [|split]].
  - intros delta scroll_now now s Hw Hd. unfold _mouse_callback.
    rewrite Hw. unfold scroll_debounce_ms.
    destruct (_ <? 100) eqn:E; bool_to_Z; [reflexivity | lia].
  - intros delta scroll_now now now' s Hw Hd. cbv zeta.
    assert (E1 : _mouse_callback (WheelEvent delta) scroll_now now s
                 = _handle_input now (with_last_scroll_time scroll_now s)).
    { unfold _mouse_callback. rewrite Hw. unfold scroll_debounce_ms.
      destruct (_ <? 100) eqn:E; bool_to_Z; [lia | reflexivity]. }
    split; [exact E1|]. rewrite E1.
    unfold _mouse_callback.
    rewrite handle_input_settings, handle_input_last_scroll_time.
    reduce_fields. rewrite Hw. unfold scroll_debounce_ms.
    destruct (_ <? 100) eqn:E; bool_to_Z; [lia | reflexivity].
  - intros event now ls s Hd Hc. unfold _key_callback. rewrite Hd.
    reduce_fields. rewrite Hc, Z.eqb_refl. reflexivity.
  - intros button scroll_now now ls s Hb. unfold _mouse_callback.
    reduce_fields. rewrite Hb.
    destruct button; reflexivity.
Qed.

Lemma wheel_debounce_witness :
  (wheel_tracked 1 (settings wheel_core) = true /\
   1050 - last_scroll_time wheel_core < 100) /\
  _mouse_callback (WheelEvent 1) 1050 1050 wheel_core = Ok wheel_core /\
  count wheel_core = 1 /\
  count (state_of (_mouse_callback (WheelEvent 1) 1150 1150 wheel_core)) = 2.
Proof.
  destruct wheel_debounce as (Hdrop & Hacc & _ & _).
  assert (Hw : wheel_tracked 1 (settings wheel_core) = true) by reflexivity.
  assert (Hd : 1050 - last_scroll_time wheel_core < 100) by reflexivity.
  split; [split; [exact Hw | exact Hd]|].
  split; [exact (Hdrop 1 1050 1050 wheel_core Hw Hd)|].
  split; [reflexivity|].
  assert (Ha : 100 <= 1150 - last_scroll_time wheel_core)
    by (intro Hc; discriminate Hc).
  destruct (Hacc 1 1150 1150 1300 wheel_core Hw Ha) as (E1 & _).
  rewrite E1. reflexivity.
Defined.

(** ** The sequence_presses update *)

(** C9, as stated, fails in Rapid mode: the rapid branch of
    [_handle_input] returns before the put of [sequence_presses].  A press
    on a core started with the default (rapid) settings adds the count and
    the status to [update_q], and nothing else. *)
Lemma rapid_press_puts_no_sequence_presses :
  is_rapid_mode (settings (CounterCore_init true default_settings)) = true /\
  update_q (CounterCore_init true default_settings) = [UStatus (TrackingKey 44)] /\
  _handle_input 1000 (CounterCore_init true default_settings)
    = Ok (mkCore default_settings 1 true
            [UStatus (TrackingKey 44); UCount 1; UStatus RapidPlusOne]
            [] [] 0 1000 0 0 true false).
Proof. repeat split. Qed.

(** C9, amended.  For every state and clock reading of a press that
    reaches [_handle_input]:
    - outside Rapid mode, with [amount >= 1], the press returns normally
      and the last update it puts is [sequence_presses] with the value the
      field now has, whether or not the count advanced; the updates put
      before it extend the queue as it was;
    - in Rapid mode the press returns normally and what it puts is the new
      count (unless the pause flag is set: then no count) and the status
      [Rapid Mode: +1], and nothing else: no [sequence_presses] update. *)
Theorem non_rapid_press_puts_sequence_presses :
  forall (now : Z) (s : CounterCore),
    (is_rapid_mode (settings s) = false ->
     1 <= amount (settings s) ->
     raised (_handle_input now s) = false /\
     exists pre : list update,
       update_q (state_of (_handle_input now s)) =
         update_q s ++ pre
           ++ [USequencePresses (sequence_presses (state_of (_handle_input now s)))]) /\
    (is_rapid_mode (settings s) = true ->
     raised (_handle_input now s) = false /\
     update_q (state_of (_handle_input now s)) =
       update_q s
         ++ (if is_paused (settings s) then [] else [UCount (count s + 1)])
         ++ [UStatus RapidPlusOne]).
Proof.
  intros now s. split.
  - intros Hr Ha. split; [by_cases|].
    unfold_control. repeat inner_if. all: reduce_fields.
    all: try congruence.
    all: rewrite <- ?app_assoc; cbn [app].
    all: first [ exists []; reflexivity
               | eexists [_]; reflexivity
               | eexists [_; _]; reflexivity
               | eexists [_; _; _]; reflexivity
               | bool_to_Z; lia ].
  - intros Hr. unfold _handle_input. rewrite Hr. cbn [raised state_of].
    split; [reflexivity|].
    unfold _update_count. destruct (is_paused (settings s)); cbn.
    + reflexivity.
    + rewrite <- app_assoc. reflexivity.
Qed.

Lemma non_rapid_press_puts_sequence_presses_witness :
  ((is_rapid_mode (settings multiclick3_core) = false /\
    1 <= amount (settings multiclick3_core)) /\
   exists pre : list update,
     update_q (state_of (_handle_input 1000 multiclick3_core)) =
       update_q multiclick3_core ++ pre
         ++ [USequencePresses
               (sequence_presses (state_of (_handle_input 1000 multiclick3_core)))]) /\
  (is_rapid_mode (settings (CounterCore_init true default_settings)) = true /\
   update_q (state_of (_handle_input 1000 (CounterCore_init true default_settings)))
     = update_q (CounterCore_init true default_settings)
         ++ (if is_paused (settings (CounterCore_init true default_settings))
             then [] else [UCount (count (CounterCore_init true default_settings) + 1)])
         ++ [UStatus RapidPlusOne]).
Proof.
  assert (Hr : is_rapid_mode (settings multiclick3_core) = false) by reflexivity.
  assert (Ha : 1 <= amount (settings multiclick3_core))
    by (intro Hc; discriminate Hc).
  assert (Hq : is_rapid_mode (settings (CounterCore_init true default_settings)) = true)
    by reflexivity.
  split; split.
  - split; [exact Hr | exact Ha].
  - exact (proj2 (proj1 (non_rapid_press_puts_sequence_presses 1000 multiclick3_core)
                    Hr Ha)).
  - exact Hq.
  - exact (proj2 (proj2 (non_rapid_press_puts_sequence_presses 1000
                           (CounterCore_init true default_settings)) Hq)).
Defined.

(** ** The clocks across a replacement *)

(** C10, as stated, fails twice.  In Rapid mode the first press after a
    replacement leaves [sequence_presses] at 0, not 1.  In Burst mode
    ([burst_idle_ms = 500], [amount = 1]) with the pause flag set, the
    first press after a replacement leaves the count where the replacement
    put it. *)
Lemma first_press_after_replacement_rapid_or_paused :
  sequence_presses
    (state_of (_handle_input 2000
       (replace_settings true default_settings
          (CounterCore_init true default_settings)))) = 0 /\
  (let c := set_is_paused true
              (set_burst_idle_ms 500 (set_is_rapid_mode false default_settings)) in
   count (replace_settings true c (CounterCore_init true default_settings)) = 0 /\
   count (state_of (_handle_input 2000
            (replace_settings true c (CounterCore_init true default_settings)))) = 0).
Proof. repeat split. Qed.

(** C10, amended.  The replacement of the settings and [set_count] leave
    [last_press_time] and [last_scroll_time] as they were.  The first press
    after a replacement by settings that are not rapid sets
    [sequence_presses] to 1, whatever its clock reading; so in Burst mode
    ([burst_idle_ms > 0], [amount = 1]) with the pause flag clear it
    advances the count at once, also when no idle gap has passed since the
    press before the replacement. *)
Theorem replacement_keeps_clocks_and_opens_sequence :
  forall (H : bool) (c : Settings) (n : Z) (s : CounterCore),
    (last_press_time (replace_settings H c s) = last_press_time s /\
     last_scroll_time (replace_settings H c s) = last_scroll_time s) /\
    (last_press_time (set_count n s) = last_press_time s /\
     last_scroll_time (set_count n s) = last_scroll_time s) /\
    (is_rapid_mode c = false ->
     forall t : Z,
       sequence_presses (state_of (_handle_input t (replace_settings H c s))) = 1) /\
    (is_rapid_mode c = false -> 0 < burst_idle_ms c -> amount c = 1 ->
     is_paused c = false ->
     forall t : Z,
       raised (_handle_input t (replace_settings H c s)) = false /\
       count (state_of (_handle_input t (replace_settings H c s)))
         = count (replace_settings H c s) + 1).
Proof.
  intros H c n s.
  destruct (replace_settings_fields H c s) as (E1 & E2 & E3 & E4 & E5 & E6).
  destruct (set_count_fields n s) as (_ & _ & _ & _ & F5 & F6).
  cbv zeta in *.
  split; [auto|]. split; [auto|].
  generalize dependent (replace_settings H c s). intros s' E1 E2 E3 E4 E5 E6.
  split.
  - intros Hr t. subst c. by_cases.
  - intros Hr Hi Ha Hp t. subst c. split; by_cases.
Qed.

Lemma replacement_keeps_clocks_and_opens_sequence_witness :
  let c := set_burst_idle_ms 500 (set_is_rapid_mode false default_settings) in
  let s := state_of (_handle_input 1000 (CounterCore_init true c)) in
  (is_rapid_mode c = false /\ 0 < burst_idle_ms c /\ amount c = 1 /\
   is_paused c = false) /\
  last_press_time (replace_settings true c s) = 1000 /\
  count (state_of (_handle_input 1001 (replace_settings true c s)))
    = count (replace_settings true c s) + 1.
Proof.
  cbv zeta.
  split; [split; [reflexivity | split; [reflexivity | split; reflexivity]]|].
  split; [reflexivity|].
  apply (replacement_keeps_clocks_and_opens_sequence true
           (set_burst_idle_ms 500 (set_is_rapid_mode false default_settings)) 0);
    reflexivity.
Defined.

(** ** Burst and Multi-Burst: [burst_idle_ms > 0] *)

Section IdleModes.

(** The idle time and the amount of the settings in force. *)
Variables T N : Z.
Hypothesis HT : 0 < T.
Hypothesis HN : 1 <= N.

Lemma idle_mode_press (t : Z) (s : CounterCore) :
  idle_mode T N s -> idle_mode T N (state_of (_handle_input t s)).
Proof using. unfold idle_mode. rewrite handle_input_settings. auto. Qed.

(** A press that stays in the sequence in progress. *)
Lemma press_continues (t : Z) (s : CounterCore) :
  idle_mode T N s ->
  1 <= sequence_presses s ->
  last_press_time s = 0 \/ t - last_press_time s <= T ->
  raised (_handle_input t s) = false /\
  sequence_presses (state_of (_handle_input t s)) = sequence_presses s + 1 /\
  count (state_of (_handle_input t s)) = count s /\
  burst_count_tracker (state_of (_handle_input t s)) = burst_count_tracker s.
Proof using HT HN.
  intros (Hr & Hi & Ha & Hp) Hq Hgap.
  repeat split; by_cases.
Qed.

(** A press that opens a sequence: it counts when [N] is 1 (Burst) or
    when [N] bursts have been completed (Multi-Burst). *)
Lemma press_opens (t b : Z) (s : CounterCore) :
  idle_mode T N s -> opens T t s b ->
  raised (_handle_input t s) = false /\
  sequence_presses (state_of (_handle_input t s)) = 1 /\
  (N = 1 \/ N <= b ->
   count (state_of (_handle_input t s)) = count s + 1 /\
   burst_count_tracker (state_of (_handle_input t s)) = (if N =? 1 then b else 0)) /\
  (1 < N -> b < N ->
   count (state_of (_handle_input t s)) = count s /\
   burst_count_tracker (state_of (_handle_input t s)) = b).
Proof using HT HN.
  intros (Hr & Hi & Ha & Hp) Ho.
  split; [by_cases|]. split; [destruct Ho as [(?&?)|(?&?&?&?)]; by_cases|].
  split.
  - intros HNb. destruct (N =? 1) eqn:E1.
    + split; destruct Ho as [(?&?)|(?&?&?&?)]; by_cases.
    + split; destruct Ho as [(?&?)|(?&?&?&?)]; by_cases.
  - intros HN1 Hb. split; destruct Ho as [(?&?)|(?&?&?&?)]; by_cases.
Qed.

(** The presses of [r] after the first press of a sequence, [tight]: none
    advances the count or closes the sequence. *)
Lemma tight_run (r : list Z) :
  forall s : CounterCore,
    idle_mode T N s -> 1 <= sequence_presses s ->
    tight T (last_press_time s) r = true ->
    raised (run_inputs r s) = false /\
    idle_mode T N (state_of (run_inputs r s)) /\
    last_press_time (state_of (run_inputs r s)) = last r (last_press_time s) /\
    sequence_presses (state_of (run_inputs r s))
      = sequence_presses s + Z.of_nat (List.length r) /\
    count (state_of (run_inputs r s)) = count s /\
    burst_count_tracker (state_of (run_inputs r s)) = burst_count_tracker s /\
    deltas r s = repeat 0 (List.length r).
Proof using HT HN.
  induction r as [|t r IH]; intros s Hm Hq Ht.
  - cbn. repeat split; try apply Hm. lia.
  - cbn [tight] in Ht. apply andb_true_iff in Ht. destruct Ht as [Hg Ht].
    bool_to_Z.
    destruct (press_continues t s Hm Hq (or_intror Hg)) as (R1 & Q1 & C1 & B1).
    pose proof (idle_mode_press t s Hm) as M1.
    pose proof (handle_input_last_press_time t s) as L1.
    cbn [run_inputs deltas List.length repeat].
    rewrite (not_raised_Ok _ R1) in *. cbn [bind state_of] in *.
    rewrite <- L1 in Ht.
    destruct (IH _ M1 ltac:(lia) Ht) as (R & M & L & Q & C & B & D).
    rewrite R, L, Q, C, B, D, Q1, C1, B1, L1.
    repeat split; try apply M; try lia.
    + symmetry. apply last_cons.
    + f_equal. lia.
Qed.

(** A whole burst: the press that opens it and the [tight] presses after. *)
Lemma burst_run (t b : Z) (r : list Z) (s : CounterCore) :
  idle_mode T N s -> opens T t s b ->
  tight T t r = true ->
  raised (run_inputs (t :: r) s) = false /\
  idle_mode T N (state_of (run_inputs (t :: r) s)) /\
  last_press_time (state_of (run_inputs (t :: r) s)) = last r t /\
  1 <= sequence_presses (state_of (run_inputs (t :: r) s)) /\
  (N = 1 \/ N <= b ->
   count (state_of (run_inputs (t :: r) s)) = count s + 1 /\
   burst_count_tracker (state_of (run_inputs (t :: r) s)) = (if N =? 1 then b else 0) /\
   deltas (t :: r) s = 1 :: repeat 0 (List.length r)) /\
  (1 < N -> b < N ->
   count (state_of (run_inputs (t :: r) s)) = count s /\
   burst_count_tracker (state_of (run_inputs (t :: r) s)) = b /\
   deltas (t :: r) s = 0 :: repeat 0 (List.length r)).
Proof using HT HN.
  intros Hm Ho Ht.
  destruct (press_opens t b s Hm Ho) as (R1 & Q1 & Hadv & Hno).
  pose proof (idle_mode_press t s Hm) as M1.
  pose proof (handle_input_last_press_time t s) as L1.
  cbn [run_inputs deltas].
  rewrite (not_raised_Ok _ R1) in *. cbn [bind state_of] in *.
  rewrite <- L1 in Ht.
  destruct (tight_run r _ M1 ltac:(lia) Ht) as (R & M & L & Q & C & B & D).
  rewrite R, L, Q, C, B, D, Q1, L1.
  split; [reflexivity|]. split; [exact M|]. split; [reflexivity|].
  split; [lia|]. split.
  - intros HNb. destruct (Hadv HNb) as (C1 & B1). rewrite C1, B1.
    repeat split. f_equal. lia.
  - intros HN1 Hb. destruct (Hno HN1 Hb) as (C1 & B1). rewrite C1, B1.
    repeat split. f_equal. lia.
Qed.

End IdleModes.

(** C2, as stated, fails at a gap equal to the idle time: the test is
    [idle_duration > burst_idle_ms].  With idle time 500, a press at 1000
    and a press at 1500, a gap of 500 >= 500, count once, not twice: the
    second press joins the sequence of the first. *)
Lemma burst_gap_equal_to_idle_time_continues :
  idle_mode 500 1 burst_core /\ sequence_presses burst_core = 0 /\
  (1500 - 1000 >=? 500) = true /\
  deltas [1000; 1500] burst_core = [1; 0] /\
  count (state_of (run_inputs [1000; 1500] burst_core)) = count burst_core + 1 /\
  sequence_presses (state_of (run_inputs [1000; 1500] burst_core)) = 2.
Proof. repeat split. Qed.

(** C2, amended.  In Burst mode (not rapid, [burst_idle_ms = T > 0],
    [amount = 1]) with the pause flag clear, a press advances the count
    exactly when it leaves [sequence_presses] at 1.  From
    [sequence_presses = 0], a run of presses with no gap longer than [T]
    (so every gap below [T]) advances the count once, on its first press; a
    second such run whose first press comes more than [T] after the last
    press of the first run advances it once more, again on its first press.
    The reading of the last press of the first run is not 0, the value
    [last_press_time] holds when there has been no press. *)
Theorem burst_counts_first_press_of_sequence :
  forall (T : Z) (s : CounterCore),
    idle_mode T 1 s -> 0 < T ->
    (forall t : Z,
       raised (_handle_input t s) = false /\
       count (state_of (_handle_input t s)) =
         count s + (if sequence_presses (state_of (_handle_input t s)) =? 1
                    then 1 else 0)) /\
    (sequence_presses s = 0 ->
     forall (t1 : Z) (r1 : list Z) (t2 : Z) (r2 : list Z),
       tight T t1 r1 = true -> tight T t2 r2 = true ->
       last r1 t1 <> 0 -> T < t2 - last r1 t1 ->
       raised (run_inputs ((t1 :: r1) ++ t2 :: r2) s) = false /\
       deltas (t1 :: r1) s = 1 :: repeat 0 (List.length r1) /\
       count (state_of (run_inputs (t1 :: r1) s)) = count s + 1 /\
       deltas ((t1 :: r1) ++ t2 :: r2) s
         = (1 :: repeat 0 (List.length r1)) ++ 1 :: repeat 0 (List.length r2) /\
       count (state_of (run_inputs ((t1 :: r1) ++ t2 :: r2) s)) = count s + 2).
Proof.
  intros T s Hm HT. split.
  - intros t. destruct Hm as (Hr & Hi & Ha & Hp). split; by_cases.
  - intros H0 t1 r1 t2 r2 Ht1 Ht2 Hl Hg.
    assert (HN : 1 <= 1) by lia.
    destruct (burst_run T 1 HT HN t1 (burst_count_tracker s) r1 s Hm
                (or_introl (conj H0 eq_refl)) Ht1)
      as (R1 & M1 & L1 & Q1 & Hadv1 & _).
    destruct (Hadv1 (or_introl eq_refl)) as (C1 & _ & D1).
    set (s1 := state_of (run_inputs (t1 :: r1) s)) in *.
    assert (Ho : opens T t2 s1 (burst_count_tracker s1 + 1)).
    { right. rewrite L1. repeat split; assumption. }
    destruct (burst_run T 1 HT HN t2 _ r2 s1 M1 Ho Ht2)
      as (R2 & M2 & L2 & Q2 & Hadv2 & _).
    destruct (Hadv2 (or_introl eq_refl)) as (C2 & _ & D2).
    rewrite run_inputs_app, deltas_app by exact R1. fold s1.
    rewrite R2, C2, D2, C1, D1.
    repeat split. lia.
Qed.

Lemma burst_counts_first_press_of_sequence_witness :
  (idle_mode 500 1 burst_core /\ 0 < 500 /\ sequence_presses burst_core = 0 /\
   tight 500 1000 [1200; 1700] = true /\ tight 500 2201 [2300] = true /\
   last [1200; 1700] 1000 <> 0 /\ 500 < 2201 - last [1200; 1700] 1000) /\
  deltas ([1000; 1200; 1700] ++ [2201; 2300]) burst_core = [1; 0; 0] ++ [1; 0].
Proof.
  assert (Hm : idle_mode 500 1 burst_core) by (repeat split).
  assert (HT : 0 < 500) by reflexivity.
  assert (Hl : last [1200; 1700] 1000 <> 0) by (intro Hc; discriminate Hc).
  assert (Hg : 500 < 2201 - last [1200; 1700] 1000) by reflexivity.
  split; [repeat split; assumption|].
  destruct (burst_counts_first_press_of_sequence 500 burst_core Hm HT) as (_ & Hrun).
  destruct (Hrun eq_refl 1000 [1200; 1700] 2201 [2300] eq_refl eq_refl Hl Hg)
    as (_ & _ & _ & Hd & _).
  exact Hd.
Defined.

(** C1, as stated, fails at gaps equal to the idle time.  With idle time
    500 and [amount = 3], presses at 1000, 1500, 2000 and 2500 are four
    bursts each followed by a gap of 500 >= 500, and the fourth does not
    advance the count: no gap closes a sequence, the four presses are one
    sequence and no burst is ever completed. *)
Lemma multiburst_gap_equal_to_idle_time_closes_nothing :
  idle_mode 500 3 multiburst3_core /\
  sequence_presses multiburst3_core = 0 /\
  burst_count_tracker multiburst3_core = 0 /\
  (1500 - 1000 >=? 500) = true /\ (2000 - 1500 >=? 500) = true /\
  (2500 - 2000 >=? 500) = true /\
  deltas [1000; 1500; 2000; 2500] multiburst3_core = [0; 0; 0; 0] /\
  sequence_presses
    (state_of (run_inputs [1000; 1500; 2000; 2500] multiburst3_core)) = 4 /\
  burst_count_tracker
    (state_of (run_inputs [1000; 1500; 2000; 2500] multiburst3_core)) = 0.
Proof. repeat split. Qed.

(** C1, amended.  In Multi-Burst mode (not rapid, [burst_idle_ms = T > 0],
    [amount = N > 1]) with the pause flag clear, for every state and every
    press: the count advances by 1 exactly when, after steps 2a and 2b
    ([prelude]), [sequence_presses] is 1 and [burst_count_tracker >= N],
    and [burst_count_tracker] is then reset to 0; otherwise neither moves
    past what the prelude left.  With [N = 3], from [sequence_presses = 0]
    and [burst_count_tracker = 0]: three bursts, each followed by a gap
    longer than [T] (a gap equal to [T] closes nothing), and a fourth burst
    advance the count once, on the first press of the fourth burst, and
    leave [burst_count_tracker] at 0.  The readings of the last presses of
    the first three bursts are not 0, the value [last_press_time] holds
    when there has been no press. *)
Theorem multiburst_counts_first_press_after_N_bursts :
  forall (T N : Z) (s : CounterCore),
    idle_mode T N s -> 0 < T -> 1 < N ->
    (forall t : Z,
       let p := prelude t s in
       let s' := state_of (_handle_input t s) in
       raised (_handle_input t s) = false /\
       sequence_presses s' = sequence_presses p /\
       if (sequence_presses p =? 1) && (burst_count_tracker p >=? N)
       then count s' = count s + 1 /\ burst_count_tracker s' = 0
       else count s' = count s /\ burst_count_tracker s' = burst_count_tracker p) /\
    (N = 3 -> sequence_presses s = 0 -> burst_count_tracker s = 0 ->
     forall (t1 : Z) (r1 : list Z) (t2 : Z) (r2 : list Z)
            (t3 : Z) (r3 : list Z) (t4 : Z) (r4 : list Z),
       tight T t1 r1 = true -> tight T t2 r2 = true ->
       tight T t3 r3 = true -> tight T t4 r4 = true ->
       last r1 t1 <> 0 -> last r2 t2 <> 0 -> last r3 t3 <> 0 ->
       T < t2 - last r1 t1 -> T < t3 - last r2 t2 -> T < t4 - last r3 t3 ->
       let three := (t1 :: r1) ++ (t2 :: r2) ++ (t3 :: r3) in
       raised (run_inputs (three ++ t4 :: r4) s) = false /\
       deltas (three ++ t4 :: r4) s
         = repeat 0 (List.length three) ++ 1 :: repeat 0 (List.length r4) /\
       count (state_of (run_inputs (three ++ t4 :: r4) s)) = count s + 1 /\
       burst_count_tracker (state_of (run_inputs (three ++ t4 :: r4) s)) = 0).
Proof.
  intros T N s Hm HT HN. split.
  - intros t. cbv zeta. destruct Hm as (Hr & Hi & Ha & Hp).
    split; [by_cases|]. split; [by_cases|].
    unfold _handle_input. rewrite Hr.
    assert (Hc : count (prelude t s) = count s) by by_cases.
    assert (Hs : settings (prelude t s) = settings s) by by_cases.
    revert Hc Hs. generalize (prelude t s) as p. intros p Hc Hs.
    unfold bind, apply_count_logic, _update_count. rewrite Hs, Hi, Ha, Hp.
    repeat inner_if. all: reduce_fields.
    all: bool_to_Z; try (split; congruence); lia.
  - intros H3 Hq Hb t1 r1 t2 r2 t3 r3 t4 r4 Ht1 Ht2 Ht3 Ht4 Hl1 Hl2 Hl3 Hg1 Hg2 Hg3.
    cbv zeta. subst N.
    assert (H1 : 1 <= 3) by lia.
    (* first burst *)
    destruct (burst_run T 3 HT H1 t1 0 r1 s Hm
                (or_introl (conj Hq (eq_sym Hb))) Ht1)
      as (R1 & M1 & L1 & Q1 & _ & Hno1).
    destruct (Hno1 ltac:(lia) ltac:(lia)) as (C1 & B1 & D1).
    set (s1 := state_of (run_inputs (t1 :: r1) s)) in *.
    (* second burst *)
    assert (Ho2 : opens T t2 s1 1).
    { right. rewrite L1, B1. repeat split; assumption. }
    destruct (burst_run T 3 HT H1 t2 1 r2 s1 M1 Ho2 Ht2)
      as (R2 & M2 & L2 & Q2 & _ & Hno2).
    destruct (Hno2 ltac:(lia) ltac:(lia)) as (C2 & B2 & D2).
    set (s2 := state_of (run_inputs (t2 :: r2) s1)) in *.
    (* third burst *)
    assert (Ho3 : opens T t3 s2 2).
    { right. rewrite L2, B2. repeat split; assumption. }
    destruct (burst_run T 3 HT H1 t3 2 r3 s2 M2 Ho3 Ht3)
      as (R3 & M3 & L3 & Q3 & _ & Hno3).
    destruct (Hno3 ltac:(lia) ltac:(lia)) as (C3 & B3 & D3).
    set (s3 := state_of (run_inputs (t3 :: r3) s2)) in *.
    (* fourth burst *)
    assert (Ho4 : opens T t4 s3 3).
    { right. rewrite L3, B3. repeat split; assumption. }
    destruct (burst_run T 3 HT H1 t4 3 r4 s3 M3 Ho4 Ht4)
      as (R4 & M4 & L4 & Q4 & Hadv4 & _).
    destruct (Hadv4 (or_intror (Z.le_refl 3))) as (C4 & B4 & D4).
    (* the four together *)
    assert (R12 : raised (run_inputs ((t1 :: r1) ++ (t2 :: r2) ++ t3 :: r3) s) = false).
    { rewrite run_inputs_app by exact R1. fold s1.
      rewrite run_inputs_app by exact R2. fold s2. exact R3. }
    assert (S12 : state_of (run_inputs ((t1 :: r1) ++ (t2 :: r2) ++ t3 :: r3) s) = s3).
    { rewrite run_inputs_app by exact R1. fold s1.
      rewrite run_inputs_app by exact R2. reflexivity. }
    assert (D12 : deltas ((t1 :: r1) ++ (t2 :: r2) ++ t3 :: r3) s
                  = repeat 0 (List.length ((t1 :: r1) ++ (t2 :: r2) ++ t3 :: r3))).
    { rewrite deltas_app by exact R1. fold s1.
      rewrite deltas_app by exact R2. fold s2.
      rewrite D1, D2, D3, !length_app, !repeat_app. reflexivity. }
    rewrite run_inputs_app, deltas_app by exact R12.
    rewrite S12, D12, D4, R4, C4, B4, C3, C2, C1.
    repeat split.
Qed.

Lemma multiburst_counts_first_press_after_N_bursts_witness :
  (idle_mode 500 3 multiburst3_core /\ 0 < 500 /\ 1 < 3 /\
   sequence_presses multiburst3_core = 0 /\
   burst_count_tracker multiburst3_core = 0) /\
  deltas (([1000; 1100] ++ [1601] ++ [2200; 2700]) ++ [3201; 3300]) multiburst3_core
    = repeat 0 (List.length ([1000; 1100] ++ [1601] ++ [2200; 2700]))
      ++ 1 :: repeat 0 (List.length [3300]).
Proof.
  assert (Hm : idle_mode 500 3 multiburst3_core) by (repeat split).
  assert (HT : 0 < 500) by reflexivity.
  assert (HN : 1 < 3) by reflexivity.
  split; [repeat split; assumption|].
  destruct (multiburst_counts_first_press_after_N_bursts 500 3 multiburst3_core
              Hm HT HN) as (_ & Hrun).
  refine (proj1 (proj2 (Hrun eq_refl eq_refl eq_refl
            1000 [1100] 1601 [] 2200 [2700] 3201 [3300]
            eq_refl eq_refl eq_refl eq_refl _ _ _ eq_refl eq_refl eq_refl)));
    intro Hc; discriminate Hc.
Defined.

(** Multi-Burst with [amount = 2] and idle time 500: presses at 0 and 100
    are the first burst, the press at 700 closes it and is the second, the
    press at 1300 closes the second and counts. *)
Example multiburst2_scenario :
  deltas [0; 100; 700; 1300] multiburst2_core = [0; 0; 0; 1] /\
  burst_count_tracker
    (state_of (run_inputs [0; 100; 700; 1300] multiburst2_core)) = 0.
Proof. split; reflexivity. Qed.

(** Rapid mode: every press counts. *)
Example rapid_scenario :
  deltas [1000; 1001; 1002] (CounterCore_init true default_settings) = [1; 1; 1].
Proof. reflexivity. Qed.

(** ** Settings ingestion *)

(** The control panel clamps both fields. *)
Lemma apply_inputs_clamps (v : PanelVars) (c : Settings) :
  1 <= amount (apply_inputs v c) /\ 0 <= burst_idle_ms (apply_inputs v c).
Proof. unfold apply_inputs. cbn. lia. Qed.

(** C8 at the failing input.  [load_or_default] clamps [amount] (0 becomes
    1) and leaves [burst_idle_ms] at -5; the control panel, given the same
    two values, clamps both.  A core built on the loaded settings handles
    presses against the negative idle time: it is neither 0 (Multi-Click)
    nor an idle time that can close a sequence, so of two presses four
    seconds apart only the first counts. *)
Theorem load_or_default_keeps_negative_idle :
  option_map amount (load_or_default (Some negative_idle_file)) = Some 1 /\
  option_map burst_idle_ms (load_or_default (Some negative_idle_file)) = Some (-5) /\
  amount (apply_inputs negative_idle_vars default_settings) = 1 /\
  burst_idle_ms (apply_inputs negative_idle_vars default_settings) = 0 /\
  option_map (fun c => deltas [1000; 5000] (CounterCore_init true c))
    (load_or_default (Some negative_idle_file)) = Some [1; 0].
Proof. repeat split. Qed.

(** * Further properties of the core *)

(** ** Rapid mode *)

Lemma rapid_press (t : Z) (s : CounterCore) :
  is_rapid_mode (settings s) = true ->
  raised (_handle_input t s) = false /\
  sequence_presses (state_of (_handle_input t s)) = 0 /\
  burst_count_tracker (state_of (_handle_input t s)) = 0 /\
  count (state_of (_handle_input t s))
    = count s + (if is_paused (settings s) then 0 else 1).
Proof.
  intros Hr. repeat split; by_cases.
Qed.

(** In Rapid mode every press counts: a run of presses never raises, each
    press moves the count by 1 (by 0 while the pause flag is set), and
    after the run [sequence_presses] and [burst_count_tracker] are 0 and
    [last_press_time] is the reading of the last press, whatever [amount]
    and [burst_idle_ms] hold. *)
Theorem rapid_counts_every_press :
  forall (ts : list Z) (s : CounterCore),
    is_rapid_mode (settings s) = true ->
    let d := if is_paused (settings s) then 0 else 1 in
    raised (run_inputs ts s) = false /\
    deltas ts s = repeat d (List.length ts) /\
    count (state_of (run_inputs ts s)) = count s + d * Z.of_nat (List.length ts) /\
    (ts <> [] ->
     sequence_presses (state_of (run_inputs ts s)) = 0 /\
     burst_count_tracker (state_of (run_inputs ts s)) = 0 /\
     last_press_time (state_of (run_inputs ts s)) = last ts 0).
Proof.
  induction ts as [|t ts IH]; intros s Hr; cbv zeta.
  - cbn. split; [reflexivity|]. split; [reflexivity|].
    split; [destruct (is_paused _); lia|]. intros Hc. congruence.
  - destruct (rapid_press t s Hr) as (R1 & Q1 & B1 & C1).
    pose proof (handle_input_settings t s) as S1.
    pose proof (handle_input_last_press_time t s) as L1.
    cbn [run_inputs deltas List.length repeat].
    rewrite (not_raised_Ok _ R1) in *. cbn [bind state_of] in *.
    assert (Hr1 : is_rapid_mode (settings (state_of (_handle_input t s))) = true)
      by (rewrite S1; exact Hr).
    destruct (IH _ Hr1) as (R & D & C & F). cbv zeta in *.
    rewrite S1 in *. rewrite R, D, C, C1.
    split; [reflexivity|]. split; [f_equal; lia|]. split; [lia|].
    intros _. destruct ts as [|t' ts'].
    + cbn [run_inputs state_of last]. rewrite Q1, B1, L1. auto.
    + destruct F as (F1 & F2 & F3); [discriminate|].
      rewrite F1, F2, F3.
      change (last (t :: t' :: ts') 0) with (last (t' :: ts') 0). auto.
Qed.

Lemma rapid_counts_every_press_witness :
  is_rapid_mode (settings (CounterCore_init true default_settings)) = true /\
  count (state_of (run_inputs [1000; 1001; 5000; 5001]
                     (CounterCore_init true default_settings)))
    = count (CounterCore_init true default_settings)
      + 1 * Z.of_nat (List.length [1000; 1001; 5000; 5001]).
Proof.
  split; [reflexivity|].
  exact (proj1 (proj2 (proj2
    (rapid_counts_every_press [1000; 1001; 5000; 5001]
       (CounterCore_init true default_settings) eq_refl)))).
Defined.

(** ** No press counts twice *)

Lemma press_delta (t : Z) (s : CounterCore) :
  count s <= count (state_of (_handle_input t s)) <= count s + 1.
Proof. split; by_cases. Qed.

(** Whatever the settings and the state, a press moves the count by 0 or
    by 1, never down and never by more; so a run of presses leaves the
    count between where it was and that plus the number of presses, and
    every entry of [deltas] is 0 or 1. *)
Theorem press_counts_at_most_once :
  forall (ts : list Z) (s : CounterCore),
    count s <= count (state_of (run_inputs ts s))
            <= count s + Z.of_nat (List.length ts) /\
    Forall (fun d => d = 0 \/ d = 1) (deltas ts s).
Proof.
  induction ts as [|t ts IH]; intros s.
  - cbn. split; [lia | constructor].
  - pose proof (press_delta t s) as Hd.
    cbn [run_inputs deltas List.length].
    destruct (_handle_input t s) as [s1|e s1]; cbn [bind state_of] in *.
    + destruct (IH s1) as (Hc & Hf). split; [lia|].
      constructor; [lia | exact Hf].
    + split; [lia|]. constructor; [lia | constructor].
Qed.

(** ** When a press raises *)

(** A press raises exactly when the settings are not rapid and hold
    [burst_idle_ms = 0] and [amount = 0] (the [%] of the Multi-Click test
    divides by zero).  The exception leaves the method after step 2b: the
    press has joined the sequence and set [last_press_time], and nothing
    has been counted or put on [update_q]. *)
Theorem press_raises_iff_multiclick_amount_zero :
  forall (t : Z) (s : CounterCore),
    raised (_handle_input t s)
      = negb (is_rapid_mode (settings s))
        && (burst_idle_ms (settings s) =? 0) && (amount (settings s) =? 0) /\
    (raised (_handle_input t s) = true ->
     sequence_presses (state_of (_handle_input t s)) = sequence_presses s + 1 /\
     last_press_time (state_of (_handle_input t s)) = t /\
     burst_count_tracker (state_of (_handle_input t s)) = burst_count_tracker s /\
     count (state_of (_handle_input t s)) = count s /\
     update_q (state_of (_handle_input t s)) = update_q s).
Proof.
  intros t s. split.
  - unfold_control. repeat inner_if. all: reduce_fields.
    all: repeat match goal with
                | H : ?b = _ |- context [?b] => rewrite H
                end.
    all: cbn [andb negb]; try reflexivity; try congruence.
    all: bool_to_Z; lia.
  - unfold_control. repeat inner_if. all: reduce_fields.
    all: intros Hc; try discriminate Hc.
    all: bool_to_Z; repeat split; try reflexivity; try congruence; try lia.
Qed.

Lemma press_raises_iff_multiclick_amount_zero_witness :
  raised (_handle_input 1000
            (CounterCore_init true
               (set_amount 0 (set_is_rapid_mode false default_settings)))) = true /\
  sequence_presses
    (state_of (_handle_input 1000
       (CounterCore_init true
          (set_amount 0 (set_is_rapid_mode false default_settings)))))
  = sequence_presses
      (CounterCore_init true
         (set_amount 0 (set_is_rapid_mode false default_settings))) + 1.
Proof.
  split; [reflexivity|].
  exact (proj1 (proj2 (press_raises_iff_multiclick_amount_zero 1000
           (CounterCore_init true
              (set_amount 0 (set_is_rapid_mode false default_settings))))
         eq_refl)).
Defined.

(** ** Invariants of the counters *)

Lemma step_nonnegative (H : bool) (o : op) (s : CounterCore) :
  0 <= sequence_presses s -> 0 <= burst_count_tracker s ->
  0 <= sequence_presses (state_of (step H o s)) /\
  0 <= burst_count_tracker (state_of (step H o s)).
Proof.
  intros Hq Hb. destruct o as [now| | |n| |c]; cbn [step state_of].
  - split; by_cases.
  - unfold _update_count. destruct (negb _); reduce_fields; auto.
  - unfold _update_count. destruct (negb _); reduce_fields; auto.
  - destruct (set_count_fields n s) as (_ & _ & E3 & E4 & _).
    cbv zeta in *. rewrite E3, E4. lia.
  - destruct (toggle_pause_fields s) as (_ & _ & E3 & E4 & _).
    cbv zeta in *. rewrite E3, E4. auto.
  - destruct (replace_settings_fields H c s) as (_ & _ & E3 & E4 & _).
    cbv zeta in *. rewrite E3, E4. lia.
Qed.

(** [sequence_presses] and [burst_count_tracker] never go below 0: a core
    as [__init__] builds it has both at 0, and no press, hotkey operation,
    [set_count], [toggle_pause] or replacement of the settings, in any
    order and under any settings, makes either negative. *)
Theorem counters_stay_nonnegative :
  forall (H : bool) (c : Settings) (os : list op),
    0 <= sequence_presses (run_ops H os (CounterCore_init H c)) /\
    0 <= burst_count_tracker (run_ops H os (CounterCore_init H c)).
Proof.
  intros H c os.
  assert (Hinit : 0 <= sequence_presses (CounterCore_init H c) /\
                  0 <= burst_count_tracker (CounterCore_init H c)).
  { unfold CounterCore_init.
    match goal with |- context [_setup_hooks H ?s0] =>
      destruct (setup_hooks_fields H s0) as (_ & _ & E3 & E4 & _) end.
    cbv zeta in *. rewrite E3, E4. cbn. lia. }
  revert Hinit. generalize (CounterCore_init H c) as s.
  induction os as [|o os IH]; intros s (Hq & Hb); cbn [run_ops]; [auto|].
  apply IH. apply step_nonnegative; assumption.
Qed.

(** ** Every change of the count is put on the queue *)

Lemma update_q_put_count (d : Z) (s : CounterCore) :
  exists suffix : list update,
    update_q (_update_count d s) = update_q s ++ suffix /\
    (count (_update_count d s) <> count s ->
     In (UCount (count (_update_count d s))) suffix).
Proof.
  unfold _update_count. destruct (negb _); reduce_fields.
  - eexists. split; [reflexivity|]. intros _. left. reflexivity.
  - exists []. rewrite app_nil_r. split; [reflexivity|]. congruence.
Qed.

(** No operation of the core takes an update off [update_q] or rewrites
    one: each only appends.  And whenever an operation leaves [count]
    different from what it was, the updates it appends include
    [("count", n)] with the new count [n]. *)
Theorem count_changes_are_put :
  forall (H : bool) (o : op) (s : CounterCore),
    exists suffix : list update,
      update_q (state_of (step H o s)) = update_q s ++ suffix /\
      (count (state_of (step H o s)) <> count s ->
       In (UCount (count (state_of (step H o s)))) suffix).
Proof.
  intros H o s. destruct o as [now| | |n| |c]; cbn [step state_of].
  - unfold_control. repeat inner_if. all: reduce_fields.
    all: rewrite <- ?app_assoc; cbn [app].
    all: first [ eexists; split; [reflexivity|]; intros Hc; cbn [In];
                 first [ congruence | tauto ]
               | exists []; rewrite app_nil_r; split; [reflexivity|]; congruence ].
  - apply update_q_put_count.
  - apply update_q_put_count.
  - unfold set_count. cbv zeta. reduce_fields.
    eexists. split; [reflexivity|]. intros _. left. reflexivity.
  - unfold toggle_pause. cbv zeta. reduce_fields.
    eexists. split; [reflexivity|]. congruence.
  - unfold replace_settings. cbv zeta. reduce_fields.
    match goal with |- context [_setup_hooks H ?s0] =>
      set (s4 := s0);
      destruct (setup_hooks_fields H s4) as (_ & E2 & _) end.
    cbv zeta in E2.
    assert (Hq : exists pre, update_q (_setup_hooks H s4) = update_q s ++ pre).
    { unfold _setup_hooks, _teardown_hooks.
      destruct H; cbn [negb]; cbv iota.
      - destruct (input_type _); subst s4; reduce_fields;
          eexists; reflexivity.
      - exists []. subst s4. reduce_fields. rewrite app_nil_r. reflexivity. }
    destruct Hq as (pre & Hq). rewrite Hq, <- !app_assoc.
    eexists. split; [reflexivity|]. intros _.
    apply in_or_app. right. left. reflexivity.
Qed.

(** ** Hooks *)

(** With the hook packages available, [_setup_hooks] leaves registered
    exactly the hook of the input type of the settings, whatever was
    registered before: a core never holds the keyboard hook and the mouse
    hook together, and a replacement that changes the input type drops the
    hook of the old one.  Without the packages it changes nothing and puts
    nothing, and a replacement then puts only the count and the pause
    flag.  [stop] clears [is_running] and, with the packages, both hooks. *)
Theorem hooks_follow_input_type :
  forall (c : Settings) (s : CounterCore),
    (let s' := replace_settings true c s in
     key_hook s' = (match input_type c with keyboard => true | mouse => false end) /\
     mouse_hook s' = (match input_type c with keyboard => false | mouse => true end) /\
     key_hook s' && mouse_hook s' = false) /\
    _setup_hooks false s = s /\
    update_q (replace_settings false c s)
      = update_q s ++ [UCount (cfg_count c); UPaused (is_paused c)] /\
    (let s' := stop true s in
     is_running s' = false /\ key_hook s' = false /\ mouse_hook s' = false).
Proof.
  intros c s. split; [|split; [|split]].
  - unfold replace_settings, _setup_hooks, _teardown_hooks. cbv zeta.
    cbn [negb]. cbv iota. reduce_fields.
    destruct (input_type c); reduce_fields; repeat split.
  - reflexivity.
  - unfold replace_settings, _setup_hooks. cbv zeta. cbn [negb]. cbv iota.
    reduce_fields. rewrite <- app_assoc. reflexivity.
  - unfold stop, _teardown_hooks. cbv zeta. cbn [negb]. cbv iota.
    reduce_fields. repeat split.
Qed.

(** ** The queue of settings *)

Lemma run_iteration_empty (H : bool) (s : CounterCore) :
  setting_q s = [] -> run_iteration H s = s.
Proof. intros Hq. unfold run_iteration. rewrite Hq. reflexivity. Qed.

Lemma replace_settings_setting_q (H : bool) (c : Settings) (s : CounterCore) :
  setting_q (replace_settings H c s) = setting_q s.
Proof.
  unfold replace_settings, _setup_hooks, _teardown_hooks. cbv zeta.
  destruct H; cbn [negb]; cbv iota; reduce_fields;
    [destruct (input_type c)|]; reduce_fields; reflexivity.
Qed.

Lemma last_cons_any {A : Type} (a d : A) (l : list A) :
  last (a :: l) d = last l a.
Proof.
  revert a d. induction l as [|b l IH]; intros a d; [reflexivity|].
  change (last (a :: b :: l) d) with (last (b :: l) d).
  rewrite (IH b d). symmetry. apply IH.
Qed.

Lemma run_passes_drain (H : bool) (q : list Settings) :
  forall s : CounterCore,
    setting_q s = q ->
    let s' := run_passes H (List.length q) s in
    setting_q s' = [] /\ settings s' = last q (settings s) /\
    (q <> [] ->
     count s' = cfg_count (last q (settings s)) /\
     sequence_presses s' = 0 /\ burst_count_tracker s' = 0).
Proof.
  induction q as [|c q IH]; intros s Hq; cbv zeta.
  - cbn. split; [assumption|]. split; [reflexivity|]. congruence.
  - cbn [List.length run_passes].
    set (s1 := replace_settings H c (with_setting_q q s)).
    assert (Hri : run_iteration H s = s1)
      by (unfold run_iteration; rewrite Hq; reflexivity).
    rewrite Hri.
    assert (Hq1 : setting_q s1 = q)
      by (subst s1; rewrite replace_settings_setting_q; reflexivity).
    destruct (replace_settings_fields H c (with_setting_q q s))
      as (E1 & E2 & E3 & E4 & _). cbv zeta in *. fold s1 in E1, E2, E3, E4.
    destruct (IH s1 Hq1) as (D1 & D2 & D3). cbv zeta in *.
    rewrite E1 in D2, D3. rewrite last_cons_any.
    split; [exact D1|]. split; [exact D2|]. intros _.
    destruct q as [|c' q'].
    + cbn [List.length run_passes last]. auto.
    + apply D3. discriminate.
Qed.

(** The settings handed to [update_settings] are applied by [run] one per
    pass, oldest first: once as many passes have run as settings were
    queued, the queue is empty, the settings in force are the last ones
    queued, [count] is the count of those, [sequence_presses] and
    [burst_count_tracker] are 0, and the passes after that change nothing. *)
Theorem queued_settings_applied_in_order :
  forall (H : bool) (cs : list Settings) (c : Settings) (s : CounterCore),
    setting_q s = [] ->
    let queued := fold_left (fun s' c' => update_settings c' s') (cs ++ [c]) s in
    let s' := run_passes H (List.length (cs ++ [c])) queued in
    setting_q queued = cs ++ [c] /\
    setting_q s' = [] /\ settings s' = c /\ count s' = cfg_count c /\
    sequence_presses s' = 0 /\ burst_count_tracker s' = 0 /\
    run_iteration H s' = s'.
Proof.
  intros H cs c s Hq. cbv zeta.
  assert (Hqueue : forall l s0,
            setting_q (fold_left (fun s' c' => update_settings c' s') l s0)
              = setting_q s0 ++ l /\
            settings (fold_left (fun s' c' => update_settings c' s') l s0)
              = settings s0).
  { induction l as [|c0 l IHl]; intros s0; cbn [fold_left].
    - rewrite app_nil_r. auto.
    - destruct (IHl (update_settings c0 s0)) as (A & B). rewrite A, B.
      unfold update_settings. reduce_fields. rewrite <- app_assoc. auto. }
  destruct (Hqueue (cs ++ [c]) s) as (A & B). rewrite Hq in A. cbn [app] in A.
  destruct (run_passes_drain H (cs ++ [c]) _ A) as (D1 & D2 & D3).
  cbv zeta in *. rewrite last_last in D2, D3.
  destruct D3 as (F1 & F2 & F3); [destruct cs; discriminate|].
  repeat split; try assumption.
  apply run_iteration_empty. exact D1.
Qed.

Lemma queued_settings_applied_in_order_witness :
  setting_q (CounterCore_init true default_settings) = [] /\
  settings
    (run_passes true (List.length ([default_settings] ++ [set_amount 4 default_settings]))
       (fold_left (fun s' c' => update_settings c' s')
          ([default_settings] ++ [set_amount 4 default_settings])
          (CounterCore_init true default_settings)))
  = set_amount 4 default_settings.
Proof.
  split; [reflexivity|].
  exact (proj1 (proj2 (proj2
    (queued_settings_applied_in_order true [default_settings]
       (set_amount 4 default_settings)
       (CounterCore_init true default_settings) eq_refl)))).
Defined.

(** ** What a change in the panel does to the running count *)

Lemma handle_input_setting_q (t : Z) (s : CounterCore) :
  setting_q (state_of (_handle_input t s)) = setting_q s.
Proof. by_cases. Qed.

Lemma step_keeps_settings_count (H : bool) (o : op) (s : CounterCore) :
  is_replace o = false ->
  setting_q (state_of (step H o s)) = setting_q s /\
  cfg_count (settings (state_of (step H o s))) = cfg_count (settings s).
Proof.
  intros Ho. destruct o as [now| | |n| |c]; cbn [step state_of];
    try discriminate Ho.
  - rewrite handle_input_setting_q, handle_input_settings. auto.
  - unfold _update_count. destruct (negb _); reduce_fields; auto.
  - unfold _update_count. destruct (negb _); reduce_fields; auto.
  - unfold set_count. cbv zeta. reduce_fields. auto.
  - unfold toggle_pause. cbv zeta. reduce_fields. auto.
Qed.

(** The core never writes the [count] field of its settings: presses,
    hotkey operations, [set_count] and [toggle_pause] leave it as it was.
    So when the panel applies its inputs to the settings object the core
    holds and [run] takes it from the queue, the count goes back to that
    field, whatever had been counted since, and the sequence restarts; the
    pause flag is kept. *)
Theorem panel_apply_resets_running_count :
  forall (H : bool) (v : PanelVars) (os : list op) (s : CounterCore),
    setting_q s = [] ->
    forallb (fun o => negb (is_replace o)) os = true ->
    let s1 := run_ops H os s in
    let s2 := run_iteration H (snd (panel_apply v (settings s1) s1)) in
    cfg_count (settings s1) = cfg_count (settings s) /\
    count s2 = cfg_count (settings s) /\
    sequence_presses s2 = 0 /\ burst_count_tracker s2 = 0 /\
    is_paused (settings s2) = is_paused (settings s1).
Proof.
  intros H v os. induction os as [|o os IH]; intros s Hq Hos; cbv zeta.
  - cbn [run_ops panel_apply snd].
    rewrite run_iteration_takes_update by exact Hq.
    destruct (replace_settings_fields H (apply_inputs v (settings s)) s)
      as (E1 & E2 & E3 & E4 & _). cbv zeta in *.
    rewrite E1, E2, E3, E4. repeat split.
  - cbn [forallb] in Hos. apply andb_true_iff in Hos. destruct Hos as (Ho & Hos).
    apply negb_true_iff in Ho.
    destruct (step_keeps_settings_count H o s Ho) as (Q1 & C1).
    cbn [run_ops].
    destruct (IH (state_of (step H o s)) ltac:(congruence) Hos) as (A & B & C & D & E).
    cbv zeta in *. rewrite C1 in A, B. auto.
Qed.

Lemma panel_apply_resets_running_count_witness :
  setting_q (CounterCore_init true default_settings) = [] /\
  forallb (fun o => negb (is_replace o)) [Input 1000; Input 1001; Increment] = true /\
  count (run_ops true [Input 1000; Input 1001; Increment]
           (CounterCore_init true default_settings)) = 3 /\
  count (run_iteration true
           (snd (panel_apply negative_idle_vars
                   (settings (run_ops true [Input 1000; Input 1001; Increment]
                                (CounterCore_init true default_settings)))
                   (run_ops true [Input 1000; Input 1001; Increment]
                      (CounterCore_init true default_settings)))))
    = cfg_count (settings (CounterCore_init true default_settings)).
Proof.
  split; [reflexivity|]. split; [reflexivity|]. split; [reflexivity|].
  exact (proj1 (proj2
    (panel_apply_resets_running_count true negative_idle_vars
       [Input 1000; Input 1001; Increment]
       (CounterCore_init true default_settings) eq_refl eq_refl))).
Defined.

(** ** Which events are handled *)

Lemma handle_input_puts_or_raises (t : Z) (s : CounterCore) :
  raised (_handle_input t s) = true \/
  exists (u : update) (suffix : list update),
    update_q (state_of (_handle_input t s)) = update_q s ++ u :: suffix.
Proof.
  unfold_control. repeat inner_if. all: reduce_fields.
  all: rewrite <- ?app_assoc; cbn [app].
  all: first [ left; reflexivity | right; eexists; eexists; reflexivity ].
Qed.

(** A press always leaves a trace: the result of [_handle_input] is never
    the unchanged core. *)
Lemma handle_input_changes (t : Z) (s : CounterCore) :
  _handle_input t s <> Ok s.
Proof.
  intros Heq. destruct (handle_input_puts_or_raises t s) as [Hr|(u & suf & Hq)].
  - rewrite Heq in Hr. discriminate Hr.
  - rewrite Heq in Hq. cbn [state_of] in Hq.
    apply (f_equal (@List.length update)) in Hq.
    rewrite length_app in Hq. cbn [List.length] in Hq. lia.
Qed.

Lemma button_name_eqb_eq (a b : button_name) :
  button_name_eqb a b = true <-> a = b.
Proof. destruct a, b; cbn; split; intros E; congruence. Qed.

(** Of all mouse events, the core handles (changes anything on) exactly
    these: a button-down of the button [input_code] names (1 to 5), and a
    wheel event in the direction [input_code] names (10 up, 11 down) that
    comes at least [scroll_debounce_ms] after [last_scroll_time].  Button
    releases, double clicks, moves and wheel events of delta 0 are never
    handled; no two different buttons are handled under the same settings,
    and never a button and the wheel. *)
Theorem mouse_events_handled :
  forall (scroll_now now : Z) (s : CounterCore),
    let handled ev := _mouse_callback ev scroll_now now s <> Ok s in
    (forall ty b,
       handled (ButtonEvent ty b) <->
       ty = DOWN /\ button_name_map (input_code (settings s)) = Some b) /\
    (forall d,
       handled (WheelEvent d) <->
       wheel_tracked d (settings s) = true /\
       scroll_debounce_ms <= scroll_now - last_scroll_time s) /\
    (forall x y, ~ handled (MoveEvent x y)) /\
    ~ handled (WheelEvent 0) /\
    (forall b b',
       handled (ButtonEvent DOWN b) -> handled (ButtonEvent DOWN b') -> b = b') /\
    (forall b d, handled (ButtonEvent DOWN b) -> ~ handled (WheelEvent d)).
Proof.
  intros scroll_now now s. cbv zeta.
  assert (HA : forall ty b,
            _mouse_callback (ButtonEvent ty b) scroll_now now s <> Ok s <->
            ty = DOWN /\ button_name_map (input_code (settings s)) = Some b).
  { intros ty b. unfold _mouse_callback.
    destruct ty; try (split; [intros Hc; congruence | intros (Hc & _); discriminate Hc]).
    destruct (button_name_map _) as [target|].
    - destruct (button_name_eqb b target) eqn:E.
      + apply button_name_eqb_eq in E. subst. split; [auto|].
        intros _. apply handle_input_changes.
      + split; [congruence|]. intros (_ & Hc). injection Hc as Hc.
        subst target. destruct b; discriminate E.
    - split; [congruence | intros (_ & Hc); discriminate Hc]. }
  assert (HB : forall d,
            _mouse_callback (WheelEvent d) scroll_now now s <> Ok s <->
            wheel_tracked d (settings s) = true /\
            scroll_debounce_ms <= scroll_now - last_scroll_time s).
  { intros d. unfold _mouse_callback.
    destruct (wheel_tracked d (settings s)).
    - destruct (_ <? _) eqn:E; bool_to_Z.
      + split; [congruence | intros (_ & Hc); lia].
      + split; [auto|]. intros _ Hc.
        destruct (handle_input_puts_or_raises now (with_last_scroll_time scroll_now s))
          as [Hr|(u & suf & Hq)].
        * rewrite Hc in Hr. discriminate Hr.
        * rewrite Hc in Hq. cbn [state_of] in Hq. reduce_fields.
          apply (f_equal (@List.length update)) in Hq.
          rewrite length_app in Hq. cbn [List.length] in Hq. lia.
    - split; [congruence | intros (Hc & _); discriminate Hc]. }
  split; [exact HA|]. split; [exact HB|].
  split; [intros x y Hc; apply Hc; reflexivity|].
  split.
  - intros Hc. apply HB in Hc. destruct Hc as (Hc & _).
    unfold wheel_tracked in Hc. cbn in Hc. discriminate Hc.
  - split.
    + intros b b' Hb Hb'. apply HA in Hb, Hb'.
      destruct Hb as (_ & Hb), Hb' as (_ & Hb'). congruence.
    + intros b d Hb Hd. apply HA in Hb. apply HB in Hd.
      destruct Hb as (_ & Hb), Hd as (Hd & _).
      unfold button_name_map in Hb. unfold wheel_tracked in Hd.
      repeat match type of Hb with
             | (if ?c then _ else _) = _ => destruct c eqn:?
             end; try discriminate Hb; bool_to_Z; lia.
Qed.

(** A key event is handled exactly when it is a key-down of the scan code
    in [input_code]; a release, or any other key, leaves every field of
    the core as it was. *)
Theorem key_events_handled :
  forall (event : KeyboardEvent) (now : Z) (s : CounterCore),
    (_key_callback event now s <> Ok s <->
     event_type event = KEY_DOWN /\ scan_code event = input_code (settings s)) /\
    (_key_callback event now s <> Ok s ->
     _key_callback event now s = _handle_input now s).
Proof.
  intros event now s. unfold _key_callback.
  destruct (event_type event).
  - destruct (scan_code event =? input_code (settings s)) eqn:E; bool_to_Z.
    + split; [|auto]. split; [auto|]. intros _. apply handle_input_changes.
    + split; [|congruence]. split; [congruence | intros (_ & Hc); congruence].
  - split; [|congruence]. split; [congruence | intros (Hc & _); discriminate Hc].
Qed.

(** ** A scroll gesture *)

Lemma wheel_ticks_debounced (delta scroll0 : Z) (ticks : list (Z * Z)) :
  forall s : CounterCore,
    wheel_tracked delta (settings s) = true ->
    last_scroll_time s = scroll0 ->
    forallb (fun tick => fst tick - scroll0 <? scroll_debounce_ms) ticks = true ->
    wheel_ticks delta ticks s = s.
Proof.
  induction ticks as [|[scroll_now now] ticks IH]; intros s Hw Hl Hf;
    cbn [wheel_ticks]; [reflexivity|].
  cbn [forallb fst] in Hf. apply andb_true_iff in Hf. destruct Hf as (Ht & Hf).
  unfold _mouse_callback. rewrite Hw, Hl, Ht. cbn [state_of].
  apply IH; assumption.
Qed.

(** A scroll gesture counts as one press: when a wheel event in the tracked
    direction is accepted, with debounce reading [scroll0], any number of
    further wheel events in that direction whose readings are less than
    [scroll_debounce_ms] after [scroll0] leave the core exactly as the
    accepted event left it. *)
Theorem scroll_gesture_is_one_press :
  forall (delta scroll0 now0 : Z) (ticks : list (Z * Z)) (s : CounterCore),
    wheel_tracked delta (settings s) = true ->
    scroll_debounce_ms <= scroll0 - last_scroll_time s ->
    forallb (fun tick => fst tick - scroll0 <? scroll_debounce_ms) ticks = true ->
    wheel_ticks delta ((scroll0, now0) :: ticks) s
      = state_of (_handle_input now0 (with_last_scroll_time scroll0 s)).
Proof.
  intros delta scroll0 now0 ticks s Hw Hacc Hf. cbn [wheel_ticks].
  assert (E : _mouse_callback (WheelEvent delta) scroll0 now0 s
              = _handle_input now0 (with_last_scroll_time scroll0 s)).
  { unfold _mouse_callback. rewrite Hw.
    destruct (_ <? _) eqn:E; bool_to_Z; [lia | reflexivity]. }
  rewrite E. apply wheel_ticks_debounced with (scroll0 := scroll0).
  - rewrite handle_input_settings. exact Hw.
  - rewrite handle_input_last_scroll_time. reflexivity.
  - exact Hf.
Qed.

Lemma scroll_gesture_is_one_press_witness :
  let s := CounterCore_init true
             (set_input_code 10 (set_input_type mouse default_settings)) in
  (wheel_tracked 3 (settings s) = true /\
   scroll_debounce_ms <= 5000 - last_scroll_time s /\
   forallb (fun tick => fst tick - 5000 <? scroll_debounce_ms)
     [(5020, 5020); (5041, 5042); (5099, 5099)] = true) /\
  count (wheel_ticks 3 [(5000, 5001); (5020, 5020); (5041, 5042); (5099, 5099)] s) = 1.
Proof.
  cbv zeta.
  assert (Hacc : scroll_debounce_ms
                 <= 5000 - last_scroll_time
                      (CounterCore_init true
                         (set_input_code 10 (set_input_type mouse default_settings))))
    by (intro Hc; discriminate Hc).
  split; [split; [reflexivity | split; [exact Hacc | reflexivity]]|].
  rewrite (scroll_gesture_is_one_press 3 5000 5001
             [(5020, 5020); (5041, 5042); (5099, 5099)]
             (CounterCore_init true
                (set_input_code 10 (set_input_type mouse default_settings)))
             eq_refl Hacc eq_refl).
  reflexivity.
Defined.

(** ** Capturing the input to track *)




(** * Properties of the settings file *)

Lemma clamp_opacity_idempotent (q : Q) :
  clamp_opacity (clamp_opacity q) = clamp_opacity q.
Proof.
  unfold clamp_opacity, Qmax, Qmin, GenericMinMax.gmax, GenericMinMax.gmin.
  destruct (1 ?= q)%Q eqn:E1.
  - reflexivity.
  - reflexivity.
  - destruct ((10 # 100) ?= q)%Q eqn:E2.
    + reflexivity.
    + rewrite E1, E2. reflexivity.
    + reflexivity.
Qed.

Lemma clamp_opacity_bounds (q : Q) :
  ((10 # 100) <= clamp_opacity q)%Q /\ (clamp_opacity q <= 1)%Q.
Proof.
  unfold clamp_opacity. split.
  - apply Q.le_max_l.
  - apply Q.max_lub; [discriminate | apply Q.le_min_l].
Qed.

(** ** How the loop over the file can end *)

Lemma setattr_raises_class (k : string) (v : json) (c : Settings) :
  setattr_if_hasattr k v c = AttrRaises -> k = "__class__"%string.
Proof.
  unfold setattr_if_hasattr.
  repeat match goal with
         | |- context [if String.eqb k ?l then _ else _] =>
             destruct (String.eqb k l) eqn:?
         end.
  all: try (destruct v; try discriminate;
            repeat match goal with
                   | |- context [if ?b then _ else _] => destruct b
                   end; discriminate).
  intros _. apply String.eqb_eq. assumption.
Qed.

Lemma plain_items_never_raise (d : dict) :
  forall c c' : Settings,
    plain_keys d = true -> setattr_items d c <> ItemsRaised c'.
Proof.
  induction d as [|[k v] d IH]; intros c c' Hp; cbn [setattr_items];
    [discriminate|].
  cbn [plain_keys forallb fst] in Hp. apply andb_true_iff in Hp.
  destruct Hp as (Hk & Hp).
  destruct (setattr_if_hasattr k v c) as [c1| |] eqn:E.
  - apply IH. exact Hp.
  - apply setattr_raises_class in E. subst k. discriminate Hk.
  - discriminate.
Qed.

Lemma plain_keys_del (k : string) (d : dict) :
  plain_keys d = true -> plain_keys (dict_del k d) = true.
Proof.
  induction d as [|[k' v'] d IH]; cbn [dict_del plain_keys forallb fst];
    [reflexivity|].
  intros Hp. apply andb_true_iff in Hp. destruct Hp as (Hk & Hp).
  destruct (String.eqb k k'); [exact Hp|].
  cbn [plain_keys forallb fst]. rewrite Hk. apply IH, Hp.
Qed.

Lemma plain_keys_set (k : string) (v : json) (d : dict) :
  String.prefix "__" k = false ->
  plain_keys d = true -> plain_keys (dict_set k v d) = true.
Proof.
  intros Hk. induction d as [|[k' v'] d IH];
    cbn [dict_set plain_keys forallb fst].
  - intros _. rewrite Hk. reflexivity.
  - intros Hp. apply andb_true_iff in Hp. destruct Hp as (Hk' & Hp).
    destruct (String.eqb k k'); cbn [plain_keys forallb fst].
    + rewrite Hk. exact Hp.
    + rewrite Hk'. apply IH, Hp.
Qed.

Lemma setattr_items_app (d1 d2 : dict) :
  forall c c1 : Settings,
    setattr_items d1 c = ItemsDone c1 ->
    setattr_items (d1 ++ d2) c = setattr_items d2 c1.
Proof.
  induction d1 as [|[k v] d1 IH]; intros c c1; cbn [setattr_items app].
  - intros E. injection E as <-. reflexivity.
  - destruct (setattr_if_hasattr k v c) as [c'| |]; try discriminate.
    apply IH.
Qed.

(** What either ingestion point lets through.  [apply_inputs] always gives
    [amount >= 1], [burst_idle_ms >= 0] and an opacity between 0.10 and 1.
    [load_or_default], on a file none of whose keys starts with two
    underscores, gives [amount >= 1] and an opacity between 0.10 and 1.  A
    [__class__] key breaks that: its [setattr] raises, and the loader
    returns the settings as the entries before it left them, with no clamp
    and without reading the entries after it. *)
Theorem ingested_settings_bounds :
  (forall (v : PanelVars) (c : Settings),
     1 <= amount (apply_inputs v c) /\ 0 <= burst_idle_ms (apply_inputs v c) /\
     ((10 # 100) <= opacity (apply_inputs v c))%Q /\
     (opacity (apply_inputs v c) <= 1)%Q) /\
  (forall (d : dict) (c : Settings),
     plain_keys d = true ->
     load_or_default (Some d) = Some c ->
     1 <= amount c /\ ((10 # 100) <= opacity c)%Q /\ (opacity c <= 1)%Q) /\
  (forall (d1 d2 : dict) (v : json) (c1 : Settings),
     dict_get "group_n" (d1 ++ ("__class__"%string, v) :: d2) = None ->
     setattr_items d1 default_settings = ItemsDone c1 ->
     load_or_default (Some (d1 ++ ("__class__"%string, v) :: d2)) = Some c1).
Proof.
  split; [|split].
  - intros v c. unfold apply_inputs.
    cbn [amount burst_idle_ms opacity set_opacity set_is_transparent set_is_bold
         set_bg_color set_text_color set_font_size set_burst_idle_ms set_amount
         set_is_rapid_mode].
    pose proof (clamp_opacity_bounds (opacity_var v / 100)%Q) as (B1 & B2).
    repeat split; try lia; assumption.
  - intros d c Hp. unfold load_or_default.
    set (data := match dict_get "group_n" d with
                 | Some g => dict_set "amount" g (dict_del "group_n" d)
                 | None => d
                 end).
    assert (Hdata : plain_keys data = true).
    { subst data. destruct (dict_get "group_n" d); [|exact Hp].
      apply plain_keys_set; [reflexivity|]. apply plain_keys_del, Hp. }
    pose proof (plain_items_never_raise data default_settings) as Hnr.
    destruct (setattr_items data default_settings) as [c'|c'|].
    + intros E. injection E as <-.
      cbn [amount opacity set_opacity set_amount].
      pose proof (clamp_opacity_bounds (opacity c')) as (B1 & B2).
      repeat split; try lia; assumption.
    + exfalso. apply (Hnr c' Hdata). reflexivity.
    + discriminate.
  - intros d1 d2 v c1 Hg Hd. unfold load_or_default. rewrite Hg.
    rewrite (setattr_items_app d1 _ default_settings c1 Hd).
    reflexivity.
Qed.

Lemma ingested_settings_bounds_witness :
  (plain_keys negative_idle_file = true /\
   option_map amount (load_or_default (Some negative_idle_file)) = Some 1) /\
  load_or_default (Some class_key_file)
    = Some (set_amount 0 (set_is_rapid_mode false default_settings)).
Proof.
  destruct ingested_settings_bounds as (_ & Hplain & Hclass).
  split; [split; [reflexivity|]|].
  - destruct (load_or_default (Some negative_idle_file)) as [c|] eqn:E;
      [|discriminate E].
    destruct (Hplain negative_idle_file c eq_refl E) as (Ha & _).
    injection E as <-. reflexivity.
  - exact (Hclass [("is_rapid_mode"%string, JBool false); ("amount"%string, JInt 0)]
             [("burst_idle_ms"%string, JInt 250)] (JInt 5)
             (set_amount 0 (set_is_rapid_mode false default_settings))
             eq_refl eq_refl).
Defined.

Lemma load_saved_data (c : Settings) :
  load_or_default (Some (dict_del "is_paused" (dict_del "count" (asdict c))))
  = Some (mkSettings (input_type c) (input_code c) (is_rapid_mode c)
            (Z.max 1 (amount c)) (burst_idle_ms c) (font_size c) (text_color c)
            (bg_color c) (is_bold c) (is_transparent c)
            (clamp_opacity (opacity c)) false 0).
Proof.
  destruct c as [ty code rapid amt idle fs tc bc bold tr op pa cnt].
  destruct ty; reflexivity.
Qed.

(** Saving and loading gives the settings back.  [save_settings] applies
    the inputs and writes every field but [count] and [is_paused];
    [load_or_default] on what was written returns the settings the panel
    then holds, with the pause flag clear and the count 0.  In particular
    a file the application wrote always loads with [burst_idle_ms >= 0]. *)
Theorem save_then_load :
  forall (p : ControlPanel) (core : CounterCore),
    let saved := save_settings (p, core) in
    let c' := panel_settings (fst (fst saved)) in
    load_or_default (Some (snd saved))
      = Some (set_cfg_count 0 (set_is_paused false c')) /\
    c' = apply_inputs (panel_vars p) (panel_settings p) /\
    setting_q (snd (fst saved)) = setting_q core ++ [c'] /\
    (forall c, load_or_default (Some (snd saved)) = Some c ->
               0 <= burst_idle_ms c).
Proof.
  intros p core. cbv zeta. unfold save_settings, panel_apply.
  cbn [fst snd panel_settings].
  set (c' := apply_inputs (panel_vars p) (panel_settings p)).
  assert (Hload : load_or_default
                    (Some (dict_del "is_paused" (dict_del "count" (asdict c'))))
                  = Some (set_cfg_count 0 (set_is_paused false c'))).
  { rewrite load_saved_data. subst c'. unfold apply_inputs.
    cbn [set_cfg_count set_is_paused set_opacity set_is_transparent set_is_bold
         set_bg_color set_text_color set_font_size set_burst_idle_ms set_amount
         set_is_rapid_mode input_type input_code is_rapid_mode amount
         burst_idle_ms font_size text_color bg_color is_bold is_transparent
         opacity is_paused cfg_count].
    rewrite clamp_opacity_idempotent, Z.max_assoc, Z.max_id. reflexivity. }
  split; [exact Hload|]. split; [reflexivity|]. split; [reflexivity|].
  intros c Hc. rewrite Hload in Hc. injection Hc as <-.
  subst c'. unfold apply_inputs. cbn. lia.
Qed.

(** ** Keys the loader does not know, and the legacy key *)

Ltac split_key_tests :=
  repeat match goal with
         | |- context [if String.eqb ?k ?l then _ else _] =>
             destruct (String.eqb k l) eqn:?
         end.

Lemma setattr_skipped (k : string) (v : json) (c : Settings) :
  hasattr_settings k = Some false -> setattr_if_hasattr k v c = AttrSet c.
Proof.
  unfold hasattr_settings, is_settings_field, settings_fields.
  cbn [existsb]. intros Hk.
  destruct (String.eqb k "input_type" || _) eqn:Hf; [discriminate Hk|].
  destruct (String.eqb k "__class__") eqn:Hc; [discriminate Hk|].
  destruct (String.prefix "__" k) eqn:Hp; [discriminate Hk|].
  repeat (apply orb_false_iff in Hf; destruct Hf as [? Hf]).
  unfold setattr_if_hasattr.
  repeat match goal with
         | E : String.eqb k _ = false |- _ => rewrite E; clear E
         end.
  rewrite Hp. reflexivity.
Qed.

Lemma loader_reads_key (k : string) (v v' : json) :
  loader_reads (k, v) = loader_reads (k, v').
Proof. reflexivity. Qed.

Lemma setattr_items_filter (d : dict) :
  forall c : Settings,
    setattr_items (filter loader_reads d) c = setattr_items d c.
Proof.
  induction d as [|[k v] d IH]; intros c; cbn [filter setattr_items]; [reflexivity|].
  destruct (loader_reads (k, v)) eqn:E.
  - cbn [setattr_items].
    destruct (setattr_if_hasattr k v c); [apply IH | reflexivity | reflexivity].
  - unfold loader_reads, loader_skips in E. cbn [fst] in E.
    apply negb_false_iff in E.
    destruct (hasattr_settings k) as [[|]|] eqn:Hk; try discriminate E.
    rewrite (setattr_skipped k v c Hk). apply IH.
Qed.

Lemma dict_get_filter (k : string) (d : dict) :
  loader_reads (k, JNull) = true ->
  dict_get k (filter loader_reads d) = dict_get k d.
Proof.
  intros Hk. induction d as [|[k' v] d IH]; cbn [filter dict_get]; [reflexivity|].
  destruct (loader_reads (k', v)) eqn:E; cbn [dict_get].
  - destruct (String.eqb k k'); [reflexivity | exact IH].
  - destruct (String.eqb k k') eqn:Ek; [|exact IH].
    apply String.eqb_eq in Ek. subst k'.
    rewrite (loader_reads_key k v JNull) in E. congruence.
Qed.

Lemma dict_del_filter (k : string) (d : dict) :
  loader_reads (k, JNull) = true ->
  dict_del k (filter loader_reads d) = filter loader_reads (dict_del k d).
Proof.
  intros Hk. induction d as [|[k' v] d IH]; cbn [filter dict_del]; [reflexivity|].
  destruct (loader_reads (k', v)) eqn:E; cbn [dict_del].
  - destruct (String.eqb k k'); [reflexivity|].
    cbn [filter]. rewrite E, IH. reflexivity.
  - destruct (String.eqb k k') eqn:Ek.
    + apply String.eqb_eq in Ek. subst k'.
      rewrite (loader_reads_key k v JNull) in E. congruence.
    + cbn [filter]. rewrite E. exact IH.
Qed.

Lemma dict_set_filter (k : string) (v : json) (d : dict) :
  loader_reads (k, JNull) = true ->
  dict_set k v (filter loader_reads d) = filter loader_reads (dict_set k v d).
Proof.
  intros Hk. induction d as [|[k' v'] d IH]; cbn [filter dict_set].
  - rewrite (loader_reads_key k v JNull), Hk. reflexivity.
  - destruct (loader_reads (k', v')) eqn:E; cbn [dict_set].
    + destruct (String.eqb k k'); cbn [filter].
      * rewrite (loader_reads_key k v JNull), Hk. reflexivity.
      * rewrite E, IH. reflexivity.
    + destruct (String.eqb k k') eqn:Ek.
      * apply String.eqb_eq in Ek. subst k'.
        rewrite (loader_reads_key k v' JNull) in E. congruence.
      * cbn [filter]. rewrite E. exact IH.
Qed.

(** An entry whose key is not a field of [Settings], is not [group_n] and
    does not start with two underscores is passed over by the loader,
    wherever it stands and whatever its value: the file loads as the file
    without those entries.  (A key that starts with two underscores is not
    among them: [__class__] makes the load stop short.) *)
Theorem load_ignores_unknown_keys :
  forall d : dict,
    load_or_default (Some (filter loader_reads d)) = load_or_default (Some d).
Proof.
  intros d. unfold load_or_default.
  rewrite (dict_get_filter "group_n" d) by reflexivity.
  destruct (dict_get "group_n" d) as [g|].
  - rewrite (dict_del_filter "group_n" d) by reflexivity.
    rewrite dict_set_filter by reflexivity.
    rewrite setattr_items_filter. reflexivity.
  - rewrite setattr_items_filter. reflexivity.
Qed.

Lemma setattr_keeps_amount (k : string) (v : json) (c c' : Settings) :
  String.eqb k "amount" = false ->
  setattr_if_hasattr k v c = AttrSet c' -> amount c' = amount c.
Proof.
  intros Hk. unfold setattr_if_hasattr. split_key_tests; try congruence.
  all: try (destruct v; try discriminate;
            repeat match goal with
                   | |- context [if ?b then _ else _] => destruct b
                   end;
            intros E; try discriminate E; injection E as <-; reflexivity).
  all: destruct (String.prefix "__" k); intros E; try discriminate E;
    injection E as <-; reflexivity.
Qed.

Lemma setattr_items_keeps_amount (d : dict) :
  forall c c' : Settings,
    ~ In "amount"%string (map fst d) ->
    setattr_items d c = ItemsDone c' -> amount c' = amount c.
Proof.
  induction d as [|[k v] d IH]; intros c c' Hn; cbn [setattr_items].
  - intros E. injection E as <-. reflexivity.
  - cbn [map fst In] in Hn.
    destruct (setattr_if_hasattr k v c) as [c1| |] eqn:E1; try discriminate.
    intros E. rewrite (IH c1 c') by tauto.
    apply (setattr_keeps_amount k v); [|exact E1].
    apply String.eqb_neq. intros Hc. subst k. tauto.
Qed.

Lemma setattr_items_amount (d : dict) (g : Z) :
  forall c c' : Settings,
    NoDup (map fst d) -> In ("amount"%string, JInt g) d ->
    setattr_items d c = ItemsDone c' -> amount c' = g.
Proof.
  induction d as [|[k v] d IH]; intros c c' Hnd Hin; cbn [setattr_items];
    [destruct Hin|].
  cbn [map fst] in Hnd. inversion Hnd as [|? ? Hk Hnd']; subst.
  destruct Hin as [Hhd|Htl].
  - injection Hhd as -> ->. cbn. intros E.
    rewrite (setattr_items_keeps_amount d _ c' Hk E). reflexivity.
  - destruct (setattr_if_hasattr k v c) as [c1| |]; try discriminate.
    apply IH; assumption.
Qed.

Lemma dict_set_keys (k : string) (v : json) (d : dict) (x : string) :
  In x (map fst (dict_set k v d)) -> x = k \/ In x (map fst d).
Proof.
  induction d as [|[k' v'] d IH]; cbn [dict_set map fst In].
  - intros [Hx|[]]. left. congruence.
  - destruct (String.eqb k k') eqn:E; cbn [map fst In].
    + apply String.eqb_eq in E. subst. intros [Hx|Hx]; [left; congruence | tauto].
    + intros [Hx|Hx]; [tauto|]. apply IH in Hx. tauto.
Qed.

Lemma dict_set_NoDup (k : string) (v : json) (d : dict) :
  NoDup (map fst d) -> NoDup (map fst (dict_set k v d)).
Proof.
  induction d as [|[k' v'] d IH]; cbn [dict_set map fst]; intros Hnd.
  - constructor; [tauto | constructor].
  - inversion Hnd as [|? ? Hk Hnd']; subst.
    destruct (String.eqb k k') eqn:E; cbn [map fst].
    + apply String.eqb_eq in E. subst. constructor; assumption.
    + constructor; [|apply IH; assumption].
      intros Hx. apply dict_set_keys in Hx. destruct Hx as [Hx|Hx]; [|tauto].
      subst. rewrite String.eqb_refl in E. discriminate.
Qed.

Lemma dict_del_keys (k : string) (d : dict) (x : string) :
  In x (map fst (dict_del k d)) -> In x (map fst d).
Proof.
  induction d as [|[k' v'] d IH]; cbn [dict_del map fst In]; [tauto|].
  destruct (String.eqb k k'); cbn [map fst In]; tauto.
Qed.

Lemma dict_del_NoDup (k : string) (d : dict) :
  NoDup (map fst d) -> NoDup (map fst (dict_del k d)).
Proof.
  induction d as [|[k' v'] d IH]; cbn [dict_del map fst]; intros Hnd; [constructor|].
  inversion Hnd as [|? ? Hk Hnd']; subst.
  destruct (String.eqb k k'); [assumption|].
  cbn [map fst]. constructor; [|apply IH; assumption].
  intros Hx. apply dict_del_keys in Hx. tauto.
Qed.

Lemma dict_set_In (k : string) (v : json) (d : dict) :
  In (k, v) (dict_set k v d).
Proof.
  induction d as [|[k' v'] d IH]; cbn [dict_set]; [left; reflexivity|].
  destruct (String.eqb k k'); [left; reflexivity | right; exact IH].
Qed.

(** The legacy key wins.  In a file (an object, so no key twice) none of
    whose keys starts with two underscores and that has [group_n] with an
    integer, the amount loaded is that integer, clamped to at least 1,
    whether or not the file also has an [amount]. *)
Theorem legacy_group_n_is_amount :
  forall (d : dict) (g : Z) (c : Settings),
    NoDup (map fst d) ->
    plain_keys d = true ->
    dict_get "group_n" d = Some (JInt g) ->
    load_or_default (Some d) = Some c ->
    amount c = Z.max 1 g.
Proof.
  intros d g c Hnd Hp Hg. unfold load_or_default. rewrite Hg.
  set (data := dict_set "amount" (JInt g) (dict_del "group_n" d)).
  assert (Hdata : plain_keys data = true).
  { subst data. apply plain_keys_set; [reflexivity|]. apply plain_keys_del, Hp. }
  pose proof (plain_items_never_raise data default_settings) as Hnr.
  destruct (setattr_items data default_settings) as [c0|c0|] eqn:E.
  - intros Hc. injection Hc as <-. cbn [amount set_opacity set_amount].
    f_equal. apply (setattr_items_amount data g default_settings c0).
    + subst data. apply dict_set_NoDup, dict_del_NoDup, Hnd.
    + subst data. apply dict_set_In.
    + exact E.
  - exfalso. apply (Hnr c0 Hdata). reflexivity.
  - discriminate.
Qed.

Lemma legacy_group_n_is_amount_witness :
  NoDup (map fst legacy_file) /\
  plain_keys legacy_file = true /\
  dict_get "group_n" legacy_file = Some (JInt 5) /\
  option_map amount (load_or_default (Some legacy_file)) = Some (Z.max 1 5).
Proof.
  assert (Hnd : NoDup (map fst legacy_file)).
  { repeat constructor; cbn; intros Hc;
      repeat (destruct Hc as [Hc|Hc]; [discriminate Hc|]); exact Hc. }
  split; [exact Hnd|]. split; [reflexivity|]. split; [reflexivity|].
  destruct (load_or_default (Some legacy_file)) as [c|] eqn:E;
    [|discriminate E].
  cbn [option_map]. f_equal.
  exact (legacy_group_n_is_amount legacy_file 5 c Hnd eq_refl eq_refl E).
Defined.

(** * Properties of the overlay *)

Lemma poll_updates_app (a b : list update) (c : Z) (o : Overlay) :
  poll_updates (a ++ b) c o = poll_updates b c (poll_updates a c o).
Proof.
  revert o. induction a as [|u a IH]; intros o; cbn [app poll_updates];
    [reflexivity | apply IH].
Qed.

Lemma poll_updates_silent (q : list update) (c : Z) (o : Overlay) :
  forallb silent q = true -> poll_updates q c o = o.
Proof.
  revert o. induction q as [|u q IH]; intros o Hs; cbn [poll_updates];
    [reflexivity|].
  cbn [forallb] in Hs. apply andb_true_iff in Hs. destruct Hs as (Hu & Hs).
  destruct u; try discriminate Hu; apply IH, Hs.
Qed.

Lemma str_not_PAUSED (n : Z) : str n <> "PAUSED"%string.
Proof.
  unfold str. destruct (Z.to_int n) as [d|d]; destruct d; discriminate.
Qed.

(** The updates of a press: either it leaves the count and puts only
    updates the overlay passes over, or the pause flag is clear and it puts
    the new count among such updates. *)
Lemma press_updates (t : Z) (s : CounterCore) :
  exists suffix : list update,
    update_q (state_of (_handle_input t s)) = update_q s ++ suffix /\
    ((count (state_of (_handle_input t s)) = count s /\
      forallb silent suffix = true) \/
     (is_paused (settings s) = false /\
      exists pre post : list update,
        suffix = pre ++ UCount (count (state_of (_handle_input t s))) :: post /\
        forallb silent pre = true /\ forallb silent post = true)).
Proof.
  unfold_control. repeat inner_if. all: reduce_fields.
  all: rewrite <- ?app_assoc; cbn [app].
  all: first
    [ exists []; rewrite app_nil_r; split; [reflexivity|];
      left; split; reflexivity
    | eexists; split; [reflexivity|];
      first
        [ left; split; reflexivity
        | right; split; [bool_to_Z; assumption|];
          first [ exists []; eexists; split; [reflexivity|]; split; reflexivity
                | eexists [_]; eexists; split; [reflexivity|]; split; reflexivity ] ] ].
Qed.

Lemma label_after_count (pre post : list update) (n c : Z) (q : list update)
    (o : Overlay) :
  forallb silent pre = true -> forallb silent post = true ->
  count_var (poll_updates (q ++ pre ++ UCount n :: post) c o) = str n.
Proof.
  intros Hpre Hpost. rewrite !poll_updates_app. cbn [poll_updates].
  rewrite (poll_updates_silent post) by exact Hpost. reflexivity.
Qed.

Lemma label_after_paused (pre : list update) (b : bool) (c : Z) (q : list update)
    (o : Overlay) :
  count_var (poll_updates (q ++ pre ++ [UPaused b]) c o)
    = if b then "PAUSED"%string else str c.
Proof.
  rewrite !poll_updates_app. cbn [poll_updates]. reflexivity.
Qed.

Lemma step_label (H : bool) (o : op) (s : CounterCore) (ov : Overlay) :
  label_after_poll s ov = label_of s ->
  (forall n, o = SetCount n -> is_paused (settings s) = false) ->
  label_after_poll (state_of (step H o s)) ov = label_of (state_of (step H o s)).
Proof.
  unfold label_after_poll, _poll_core_updates, label_of. cbn [snd].
  intros Hinv Hset. destruct o as [now| | |n| |c]; cbn [step state_of].
  - destruct (press_updates now s) as (suf & Hq & [(Hc & Hs)|(Hp & pre & post & -> & Hpre & Hpost)]).
    + rewrite Hq, Hc, handle_input_settings, poll_updates_app.
      rewrite (poll_updates_silent suf) by exact Hs. exact Hinv.
    + rewrite Hq, handle_input_settings, Hp.
      apply label_after_count; assumption.
  - unfold _update_count. destruct (is_paused (settings s)) eqn:Hp;
      cbn [negb]; reduce_fields; rewrite ?Hp.
    + exact Hinv.
    + apply (label_after_count [] []); reflexivity.
  - unfold _update_count. destruct (is_paused (settings s)) eqn:Hp;
      cbn [negb]; reduce_fields; rewrite ?Hp.
    + exact Hinv.
    + apply (label_after_count [] []); reflexivity.
  - unfold set_count. cbv zeta. reduce_fields.
    rewrite (Hset n eq_refl). apply (label_after_count [] []); reflexivity.
  - unfold toggle_pause. cbv zeta. reduce_fields.
    apply (label_after_paused []).
  - destruct (replace_settings_fields H c s) as (E1 & E2 & _). cbv zeta in *.
    rewrite E1.
    assert (Hq : exists pre, forallb silent pre = true /\
                   update_q (replace_settings H c s)
                   = update_q s ++ (pre ++ [UCount (cfg_count c)])
                       ++ [UPaused (is_paused c)]).
    { unfold replace_settings, _setup_hooks, _teardown_hooks. cbv zeta.
      destruct H; cbn [negb]; cbv iota; reduce_fields.
      - destruct (input_type c); reduce_fields; rewrite <- !app_assoc;
          [exists [UStatus (TrackingKey (input_code c))]
          |exists [UStatus (TrackingMouse (input_code c))]];
          split; reflexivity.
      - exists []. rewrite <- !app_assoc. split; reflexivity. }
    destruct Hq as (pre & _ & Hq). rewrite Hq.
    apply label_after_paused.
Qed.

(** The label follows the core.  Say the overlay is in step with the core
    when, once it has polled the queue, its label reads ["PAUSED"] if the
    pause flag is set and the count otherwise.  A core and an overlay built
    on the same unpaused settings are in step; polling empties the queue,
    shows that label and keeps them in step; and every operation of the
    core keeps them in step, [set_count] only if the pause flag is clear. *)
Theorem overlay_label_follows_core :
  (forall (H : bool) (c : Settings) (x y : Z),
     is_paused c = false ->
     label_after_poll (CounterCore_init H c) (Overlay_init c x y)
       = label_of (CounterCore_init H c)) /\
  (forall (s : CounterCore) (ov : Overlay),
     let polled := _poll_core_updates s ov in
     update_q (fst polled) = [] /\
     count_var (snd polled) = label_after_poll s ov /\
     label_of (fst polled) = label_of s /\
     label_after_poll (fst polled) (snd polled) = label_after_poll s ov) /\
  (forall (H : bool) (o : op) (s : CounterCore) (ov : Overlay),
     label_after_poll s ov = label_of s ->
     (forall n, o = SetCount n -> is_paused (settings s) = false) ->
     label_after_poll (state_of (step H o s)) ov = label_of (state_of (step H o s))).
Proof.
  split; [|split].
  - intros H c x y Hp. unfold label_after_poll, _poll_core_updates, label_of.
    cbn [snd]. unfold CounterCore_init, _setup_hooks, _teardown_hooks.
    destruct H; cbn [negb]; cbv iota; reduce_fields.
    + destruct (input_type c); reduce_fields; rewrite Hp; reflexivity.
    + rewrite Hp. reflexivity.
  - intros s ov. cbv zeta. unfold label_after_poll, _poll_core_updates, label_of.
    cbn [fst snd]. reduce_fields. repeat split.
  - exact step_label.
Qed.

(** The exception.  [set_count] while the pause flag is set (hotkey [0]
    during a pause) leaves the flag set, yet once the overlay has polled,
    its label is the new count and no longer ["PAUSED"]: no count is ever
    written as ["PAUSED"]. *)
Theorem set_count_while_paused_drops_the_pause_label :
  forall (n : Z) (s : CounterCore) (ov : Overlay),
    is_paused (settings s) = true ->
    is_paused (settings (set_count n s)) = true /\
    label_of (set_count n s) = "PAUSED"%string /\
    label_after_poll (set_count n s) ov = str n /\
    label_after_poll (set_count n s) ov <> label_of (set_count n s).
Proof.
  intros n s ov Hp.
  assert (Hl : label_after_poll (set_count n s) ov = str n).
  { unfold label_after_poll, _poll_core_updates. cbn [snd].
    unfold set_count. cbv zeta. reduce_fields.
    apply (label_after_count [] []); reflexivity. }
  assert (Hs : is_paused (settings (set_count n s)) = true).
  { unfold set_count. cbv zeta. reduce_fields. exact Hp. }
  split; [exact Hs|]. unfold label_of. rewrite Hs.
  split; [reflexivity|]. split; [exact Hl|].
  rewrite Hl. apply str_not_PAUSED.
Qed.

Lemma set_count_while_paused_drops_the_pause_label_witness :
  is_paused (settings paused_core) = true /\
  label_after_poll (set_count 0 paused_core) (Overlay_init default_settings 100 100)
    = "0"%string.
Proof.
  split; [reflexivity|].
  exact (proj1 (proj2 (proj2
    (set_count_while_paused_drops_the_pause_label 0 paused_core
       (Overlay_init default_settings 100 100) eq_refl)))).
Defined.

(** * Any number of bursts *)

Section Bursts.

Variable T : Z.
Hypothesis HT : 0 < T.

Lemma presses_cons (b : burst) (bs : list burst) :
  presses (b :: bs) = (fst b :: snd b) ++ presses bs.
Proof using. reflexivity. Qed.

(** Burst mode, a sequence in progress: each burst that follows counts
    once, on its first press. *)
Lemma burst_mode_bursts (bs : list burst) :
  forall s : CounterCore,
    idle_mode T 1 s -> 1 <= sequence_presses s ->
    separated T (last_press_time s) bs = true ->
    raised (run_inputs (presses bs) s) = false /\
    deltas (presses bs) s = first_press_marks bs /\
    count (state_of (run_inputs (presses bs) s))
      = count s + Z.of_nat (List.length bs).
Proof using HT.
  induction bs as [|b bs IH]; intros s Hm Hq Hsep.
  - cbn. repeat split. lia.
  - cbn [separated] in Hsep.
    apply andb_true_iff in Hsep. destruct Hsep as (Hsep & Hrest).
    apply andb_true_iff in Hsep. destruct Hsep as (Hsep & Htight).
    apply andb_true_iff in Hsep. destruct Hsep as (Hprev & Hgap).
    bool_to_Z.
    assert (Ho : opens T (fst b) s (burst_count_tracker s + 1)).
    { right. repeat split; assumption. }
    destruct (burst_run T 1 HT ltac:(lia) (fst b) _ (snd b) s Hm Ho Htight)
      as (R1 & M1 & L1 & Q1 & Hadv & _).
    destruct (Hadv (or_introl eq_refl)) as (C1 & _ & D1).
    rewrite <- L1 in Hrest.
    destruct (IH _ M1 Q1 Hrest) as (R & D & C).
    rewrite presses_cons, run_inputs_app, deltas_app by exact R1.
    rewrite R, D, C, C1, D1. cbn [List.length first_press_marks flat_map app].
    repeat split. lia.
Qed.

(** Multi-Burst mode with [amount = N], a sequence in progress and [k]
    bursts completed: of the [N - k] bursts that follow, only the last
    counts, on its first press. *)
Lemma multiburst_mode_bursts (N : Z) (bs : list burst) :
  1 < N ->
  forall s : CounterCore,
    idle_mode T N s -> 1 <= sequence_presses s ->
    burst_count_tracker s < N ->
    burst_count_tracker s + Z.of_nat (List.length bs) = N ->
    separated T (last_press_time s) bs = true ->
    raised (run_inputs (presses bs) s) = false /\
    deltas (presses bs) s = last_burst_marks bs /\
    count (state_of (run_inputs (presses bs) s)) = count s + 1 /\
    burst_count_tracker (state_of (run_inputs (presses bs) s)) = 0.
Proof using HT.
  intros HN. induction bs as [|b bs IH]; intros s Hm Hq Hlt Hlen Hsep.
  - cbn in Hlen. lia.
  - cbn [separated] in Hsep.
    apply andb_true_iff in Hsep. destruct Hsep as (Hsep & Hrest).
    apply andb_true_iff in Hsep. destruct Hsep as (Hsep & Htight).
    apply andb_true_iff in Hsep. destruct Hsep as (Hprev & Hgap).
    bool_to_Z.
    assert (Ho : opens T (fst b) s (burst_count_tracker s + 1)).
    { right. repeat split; assumption. }
    destruct (burst_run T N HT ltac:(lia) (fst b) _ (snd b) s Hm Ho Htight)
      as (R1 & M1 & L1 & Q1 & Hadv & Hno).
    rewrite presses_cons, run_inputs_app, deltas_app by exact R1.
    destruct bs as [|b' bs'].
    + cbn [List.length] in Hlen.
      destruct (Hadv ltac:(right; lia)) as (C1 & B1 & D1).
      destruct (N =? 1) eqn:E1; bool_to_Z; [lia|].
      cbn [presses flat_map run_inputs deltas state_of last_burst_marks].
      rewrite app_nil_r. repeat split; assumption.
    + cbn [List.length] in Hlen.
      destruct (Hno HN ltac:(lia)) as (C1 & B1 & D1).
      rewrite <- L1 in Hrest.
      destruct (IH _ M1 Q1 ltac:(lia) ltac:(cbn [List.length]; lia) Hrest)
        as (R & D & C & B).
      rewrite R, D, C, B, C1, D1.
      change (last_burst_marks (b :: b' :: bs'))
        with (repeat 0 (S (List.length (snd b))) ++ last_burst_marks (b' :: bs')).
      repeat split.
Qed.

End Bursts.

(** Burst mode counts the sequences.  With [burst_idle_ms = T > 0],
    [amount = 1] and the pause flag clear, from [sequence_presses = 0]: for
    any number of bursts, each [tight] and each starting more than [T]
    after the last press of the one before (a press whose reading is not
    0), the count advances on the first press of every burst and on no
    other press, so it ends up higher by the number of bursts. *)
Theorem burst_mode_counts_the_bursts :
  forall (T : Z) (s : CounterCore) (first : burst) (rest : list burst),
    idle_mode T 1 s -> 0 < T -> sequence_presses s = 0 ->
    tight T (fst first) (snd first) = true ->
    separated T (last (snd first) (fst first)) rest = true ->
    raised (run_inputs (presses (first :: rest)) s) = false /\
    deltas (presses (first :: rest)) s = first_press_marks (first :: rest) /\
    count (state_of (run_inputs (presses (first :: rest)) s))
      = count s + Z.of_nat (List.length (first :: rest)).
Proof.
  intros T s first rest Hm HT H0 Ht Hsep.
  destruct (burst_run T 1 HT ltac:(lia) (fst first) (burst_count_tracker s)
              (snd first) s Hm (or_introl (conj H0 eq_refl)) Ht)
    as (R1 & M1 & L1 & Q1 & Hadv & _).
  destruct (Hadv (or_introl eq_refl)) as (C1 & _ & D1).
  rewrite <- L1 in Hsep.
  destruct (burst_mode_bursts T HT rest _ M1 Q1 Hsep) as (R & D & C).
  rewrite presses_cons, run_inputs_app, deltas_app by exact R1.
  rewrite R, D, C, C1, D1. cbn [List.length first_press_marks flat_map app].
  repeat split. lia.
Qed.

Lemma burst_mode_counts_the_bursts_witness :
  (idle_mode 500 1 burst_core /\ 0 < 500 /\ sequence_presses burst_core = 0 /\
   tight 500 1000 [1200] = true /\
   separated 500 (last [1200] 1000) [(1701, []); (2300, [2800; 3300])] = true) /\
  deltas (presses [(1000, [1200]); (1701, []); (2300, [2800; 3300])]) burst_core
    = first_press_marks [(1000, [1200]); (1701, []); (2300, [2800; 3300])].
Proof.
  assert (Hm : idle_mode 500 1 burst_core) by (repeat split).
  assert (HT : 0 < 500) by reflexivity.
  split; [repeat split; assumption|].
  exact (proj1 (proj2
    (burst_mode_counts_the_bursts 500 burst_core (1000, [1200])
       [(1701, []); (2300, [2800; 3300])] Hm HT eq_refl eq_refl eq_refl))).
Defined.

(** Multi-Burst mode counts every [N]-th burst.  With [burst_idle_ms = T >
    0], [amount = N > 1] and the pause flag clear, in a sequence in
    progress with [k < N] bursts completed: of the next [N - k] bursts (each
    [tight], each starting more than [T] after the last press before it),
    only the last advances the count, by 1 and on its first press, and it
    resets [burst_count_tracker] to 0.  So after a count (k = 0) the next
    count comes [N] bursts later; a core just started, with no sequence to
    close, needs one burst more. *)
Theorem multiburst_mode_counts_every_Nth_burst :
  forall (T N : Z) (s : CounterCore) (bs : list burst),
    idle_mode T N s -> 0 < T -> 1 < N ->
    1 <= sequence_presses s ->
    burst_count_tracker s < N ->
    burst_count_tracker s + Z.of_nat (List.length bs) = N ->
    separated T (last_press_time s) bs = true ->
    raised (run_inputs (presses bs) s) = false /\
    deltas (presses bs) s = last_burst_marks bs /\
    count (state_of (run_inputs (presses bs) s)) = count s + 1 /\
    burst_count_tracker (state_of (run_inputs (presses bs) s)) = 0.
Proof.
  intros T N s bs Hm HT HN Hq Hlt Hlen Hsep.
  exact (multiburst_mode_bursts T HT N bs HN s Hm Hq Hlt Hlen Hsep).
Qed.

Lemma multiburst_mode_counts_every_Nth_burst_witness :
  (idle_mode 500 3 multiburst3_pressed /\ 0 < 500 /\ 1 < 3 /\
   1 <= sequence_presses multiburst3_pressed /\
   burst_count_tracker multiburst3_pressed < 3 /\
   burst_count_tracker multiburst3_pressed
     + Z.of_nat (List.length [(1601, []); (2202, [2300]); (3000, [3100])]) = 3 /\
   separated 500 (last_press_time multiburst3_pressed)
     [(1601, []); (2202, [2300]); (3000, [3100])] = true) /\
  deltas (presses [(1601, []); (2202, [2300]); (3000, [3100])]) multiburst3_pressed
    = [0; 0; 0; 1; 0].
Proof.
  assert (Hm : idle_mode 500 3 multiburst3_pressed) by (repeat split).
  assert (HT : 0 < 500) by reflexivity.
  assert (HN : 1 < 3) by reflexivity.
  assert (Hq : 1 <= sequence_presses multiburst3_pressed)
    by (intro Hc; discriminate Hc).
  assert (Hlt : burst_count_tracker multiburst3_pressed < 3) by reflexivity.
  split; [repeat split; assumption|].
  exact (proj1 (proj2
    (multiburst_mode_counts_every_Nth_burst 500 3 multiburst3_pressed
       [(1601, []); (2202, [2300]); (3000, [3100])]
       Hm HT HN Hq Hlt eq_refl eq_refl))).
Defined.

(** * Dragging the overlay *)

Lemma drag_motions_keeps (events : list PointerEvent) :
  forall o : Overlay,
    _drag_off_x (drag_motions events o) = _drag_off_x o /\
    _drag_off_y (drag_motions events o) = _drag_off_y o /\
    count_var (drag_motions events o) = count_var o.
Proof.
  unfold drag_motions.
  induction events as [|e events IH]; intros o; cbn [fold_left]; [auto|].
  destruct (IH (_do_drag e o)) as (A & B & C). rewrite A, B, C.
  unfold _do_drag. cbn. auto.
Qed.

(** The window follows the pointer: after [_start_drag] and any motions,
    the window stands where it stood plus the displacement of the pointer
    from the start of the drag to the last motion, however the pointer got
    there; the label is untouched. *)
Theorem drag_moves_window_by_pointer_displacement :
  forall (start final : PointerEvent) (motions : list PointerEvent) (o : Overlay),
    let o' := drag_motions (motions ++ [final]) (_start_drag start o) in
    winfo_x o' = winfo_x o + (x_root final - x_root start) /\
    winfo_y o' = winfo_y o + (y_root final - y_root start) /\
    count_var o' = count_var o.
Proof.
  intros start final motions o. cbv zeta.
  unfold drag_motions. rewrite fold_left_app. cbn [fold_left].
  fold (drag_motions motions (_start_drag start o)).
  destruct (drag_motions_keeps motions (_start_drag start o)) as (A & B & C).
  unfold _do_drag at 1 2 3. cbn [winfo_x winfo_y count_var].
  rewrite A, B, C. unfold _start_drag. cbn. repeat split; lia.
Qed.

(** * Pausing, over a whole run *)

Lemma same_book_prelude (t : Z) (s1 s2 : CounterCore) :
  same_book s1 s2 -> same_book (prelude t s1) (prelude t s2).
Proof.
  unfold same_book. intros (Q & B & L & R & I & A).
  unfold prelude, close_idle_sequence. rewrite Q, B, L, I.
  repeat inner_if. all: reduce_fields. all: repeat split; congruence.
Qed.

Lemma same_book_count_logic (p1 p2 : CounterCore) :
  same_book p1 p2 ->
  raised (apply_count_logic p1) = raised (apply_count_logic p2) /\
  same_book (state_of (apply_count_logic p1)) (state_of (apply_count_logic p2)).
Proof.
  unfold same_book. intros (Q & B & L & R & I & A).
  unfold apply_count_logic, _update_count. rewrite Q, B, I, A.
  repeat inner_if. all: reduce_fields. all: repeat split; congruence.
Qed.

Lemma same_book_press (t : Z) (s1 s2 : CounterCore) :
  same_book s1 s2 ->
  raised (_handle_input t s1) = raised (_handle_input t s2) /\
  same_book (state_of (_handle_input t s1)) (state_of (_handle_input t s2)).
Proof.
  intros Hb. pose proof Hb as (Q & B & L & R & I & A).
  unfold _handle_input. rewrite R.
  destruct (is_rapid_mode (settings s2)) eqn:Hr.
  - unfold same_book, _update_count. repeat inner_if. all: reduce_fields.
    all: repeat split; congruence.
  - destruct (same_book_count_logic _ _ (same_book_prelude t s1 s2 Hb)) as (Hra & Hsb).
    unfold bind.
    destruct (apply_count_logic (prelude t s1)) as [q1|e1 q1];
      destruct (apply_count_logic (prelude t s2)) as [q2|e2 q2];
      cbn [raised state_of] in *; try discriminate Hra.
    + split; [reflexivity|]. unfold same_book in *. reduce_fields. exact Hsb.
    + split; [reflexivity|]. exact Hsb.
Qed.

Lemma same_book_run (ts : list Z) :
  forall s1 s2 : CounterCore,
    same_book s1 s2 ->
    raised (run_inputs ts s1) = raised (run_inputs ts s2) /\
    same_book (state_of (run_inputs ts s1)) (state_of (run_inputs ts s2)).
Proof.
  induction ts as [|t ts IH]; intros s1 s2 Hb; cbn [run_inputs].
  - cbn. auto.
  - destruct (same_book_press t s1 s2 Hb) as (Hr & Hb').
    destruct (_handle_input t s1) as [q1|e1 q1];
      destruct (_handle_input t s2) as [q2|e2 q2];
      cbn [raised state_of bind] in *; try discriminate Hr.
    + apply IH. exact Hb'.
    + auto.
Qed.

(** Pausing freezes the count and nothing else, over any run of presses:
    started from the same state, the run handled with the pause flag set
    and the run handled with it clear end alike on [sequence_presses],
    [burst_count_tracker] and [last_press_time], and raise or not alike;
    the paused run leaves the count where it was. *)
Theorem paused_run_keeps_bookkeeping :
  forall (ts : list Z) (s : CounterCore),
    let rp := run_inputs ts (paused_as true s) in
    let ru := run_inputs ts (paused_as false s) in
    raised rp = raised ru /\
    sequence_presses (state_of rp) = sequence_presses (state_of ru) /\
    burst_count_tracker (state_of rp) = burst_count_tracker (state_of ru) /\
    last_press_time (state_of rp) = last_press_time (state_of ru) /\
    count (state_of rp) = count s.
Proof.
  intros ts s. cbv zeta.
  assert (Hb : same_book (paused_as true s) (paused_as false s))
    by (unfold same_book; reduce_fields; repeat split).
  destruct (same_book_run ts _ _ Hb) as (Hr & Q & B & L & _).
  repeat split; try assumption.
  rewrite run_inputs_paused_count by reflexivity. reflexivity.
Qed.

(** * A negative idle time *)

Lemma negative_idle_press (t : Z) (s : CounterCore) :
  is_rapid_mode (settings s) = false -> burst_idle_ms (settings s) < 0 ->
  1 <= sequence_presses s ->
  raised (_handle_input t s) = false /\
  sequence_presses (state_of (_handle_input t s)) = sequence_presses s + 1 /\
  count (state_of (_handle_input t s)) = count s /\
  burst_count_tracker (state_of (_handle_input t s)) = burst_count_tracker s.
Proof.
  intros Hr Hi Hq. repeat split; by_cases.
Qed.

(** With a negative [burst_idle_ms] (settings that are not rapid) a
    sequence is never closed: once it has a press, no later press advances
    the count, whatever the gaps between the presses, the amount and the
    pause flag; [sequence_presses] just grows.  Only [set_count] or a
    replacement of the settings starts a new sequence. *)
Theorem negative_idle_never_counts_again :
  forall (ts : list Z) (s : CounterCore),
    is_rapid_mode (settings s) = false -> burst_idle_ms (settings s) < 0 ->
    1 <= sequence_presses s ->
    raised (run_inputs ts s) = false /\
    deltas ts s = repeat 0 (List.length ts) /\
    count (state_of (run_inputs ts s)) = count s /\
    sequence_presses (state_of (run_inputs ts s))
      = sequence_presses s + Z.of_nat (List.length ts) /\
    burst_count_tracker (state_of (run_inputs ts s)) = burst_count_tracker s.
Proof.
  induction ts as [|t ts IH]; intros s Hr Hi Hq.
  - cbn. repeat split. lia.
  - destruct (negative_idle_press t s Hr Hi Hq) as (R1 & Q1 & C1 & B1).
    pose proof (handle_input_settings t s) as S1.
    cbn [run_inputs deltas List.length repeat].
    rewrite (not_raised_Ok _ R1) in *. cbn [bind state_of] in *.
    destruct (IH (state_of (_handle_input t s))) as (R & D & C & Q & B);
      try (rewrite S1; assumption); try lia.
    rewrite R, D, C, Q, B, C1, Q1, B1.
    repeat split; try lia. f_equal. lia.
Qed.

Lemma negative_idle_never_counts_again_witness :
  (is_rapid_mode (settings negative_idle_pressed) = false /\
   burst_idle_ms (settings negative_idle_pressed) < 0 /\
   1 <= sequence_presses negative_idle_pressed) /\
  deltas [5000; 60000; 3600000] negative_idle_pressed
    = repeat 0 (List.length [5000; 60000; 3600000]).
Proof.
  assert (Hq : 1 <= sequence_presses negative_idle_pressed)
    by (intro Hc; discriminate Hc).
  split; [split; [reflexivity | split; [reflexivity | exact Hq]]|].
  exact (proj1 (proj2
    (negative_idle_never_counts_again [5000; 60000; 3600000]
       negative_idle_pressed eq_refl eq_refl Hq))).
Defined.

(** * Pending changes of the panel *)

Lemma pending_requests (n : nat) (p : ControlPanel) :
  Nat.iter (S n) _apply_pending_settings p
  = mkPanel (panel_settings p) (panel_vars p) (is_capturing p) true.
Proof.
  induction n as [|n IH]; [reflexivity|].
  change (Nat.iter (S (S n)) _apply_pending_settings p)
    with (_apply_pending_settings (Nat.iter (S n) _apply_pending_settings p)).
  rewrite IH. reflexivity.
Qed.

(** Changes in the panel are applied once per check: however many widgets
    asked for an apply since the last check, [_check_pending_apply] hands
    the core one settings object, the inputs applied to the panel's
    settings; and a check with nothing pending hands it nothing. *)
Theorem pending_changes_are_applied_once :
  forall (n : nat) (p : ControlPanel) (core : CounterCore),
    let asked := Nat.iter (S n) _apply_pending_settings p in
    let checked := _check_pending_apply (asked, core) in
    setting_q (snd checked)
      = setting_q core ++ [apply_inputs (panel_vars p) (panel_settings p)] /\
    panel_settings (fst checked) = apply_inputs (panel_vars p) (panel_settings p) /\
    _check_pending_apply checked = checked.
Proof.
  intros n p core. cbv zeta. rewrite pending_requests.
  unfold _check_pending_apply, panel_apply, update_settings.
  cbn [_pending_apply_settings panel_settings panel_vars is_capturing fst snd].
  reduce_fields. repeat split.
Qed.
